(** * A shallow embedding of [scripts/release.py] (Open Image Denoise release script)

    The script is modelled as computations in a small state-and-exception
    monad.  The state is the file system (an association list from
    normalised absolute POSIX paths to entry kinds), the current working
    directory and the list of observable actions (the [print] lines and the
    shell commands passed to [os.system]).  The world outside the script
    (the network, the archive readers, [nm], the shell commands) is given by
    section variables, so every theorem holds for every behaviour of them.
    Paths are handled with the POSIX rules of [posixpath]. *)

From Stdlib Require Import String Ascii ZArith List Bool Lia.
Import ListNotations.
Open Scope string_scope.

(* ------------------------------------------------------------------ *)
(** ** Python string helpers *)

Definition chr (n : nat) : ascii := ascii_of_nat n.
Definition sing (c : ascii) : string := String c EmptyString.

(** [str.startswith] *)
Definition startswith (s pre : string) : bool := String.prefix pre s.

Fixpoint prefix_l (p l : list ascii) : bool :=
  match p, l with
  | [], _ => true
  | c :: p', d :: l' => Ascii.eqb c d && prefix_l p' l'
  | _ :: _, [] => false
  end.

(** [str.endswith]: the reversed suffix is a prefix of the reversed string. *)
Definition endswith (s suf : string) : bool :=
  prefix_l (rev (list_ascii_of_string suf)) (rev (list_ascii_of_string s)).

(** [sub in s] *)
Fixpoint contains (sub s : string) : bool :=
  String.prefix sub s ||
  match s with
  | EmptyString => false
  | String _ s' => contains sub s'
  end.

(** [str.split(sep)] for a non-empty separator: the string is cut at every
    non-overlapping occurrence of [sep], scanning from the left. *)
Fixpoint split_fuel (fuel : nat) (sep s acc : string) : list string :=
  match fuel with
  | O => [acc ++ s]
  | S f =>
      match s with
      | EmptyString => [acc]
      | String c s' =>
          if String.prefix sep s
          then acc :: split_fuel f sep (substring (String.length sep) (String.length s) s) ""
          else split_fuel f sep s' (acc ++ sing c)
      end
  end.

Definition py_split (sep s : string) : list string :=
  split_fuel (S (String.length s)) sep s "".

(** [str.isspace] on one character (ASCII range): space, \t \n \v \f \r
    and the separators \x1c .. \x1f. *)
Definition is_space (c : ascii) : bool :=
  let n := nat_of_ascii c in
  (n =? 32)%nat || ((9 <=? n)%nat && (n <=? 13)%nat) || ((28 <=? n)%nat && (n <=? 31)%nat).

Fixpoint lstrip_l (l : list ascii) : list ascii :=
  match l with
  | [] => []
  | c :: l' => if is_space c then lstrip_l l' else l
  end.

(** [str.strip()] *)
Definition strip (s : string) : string :=
  string_of_list_ascii (rev (lstrip_l (rev (lstrip_l (list_ascii_of_string s))))).

Definition digit_val (c : ascii) : option Z :=
  let n := nat_of_ascii c in
  if ((48 <=? n)%nat && (n <=? 57)%nat) then Some (Z.of_nat (n - 48)) else None.

Fixpoint digits_val (acc : Z) (l : list ascii) : option Z :=
  match l with
  | [] => Some acc
  | c :: l' =>
      match digit_val c with
      | Some d => digits_val (acc * 10 + d)%Z l'
      | None => None
      end
  end.

(** [int(s)] on a string without underscores: surrounding white space, an
    optional sign, then at least one decimal digit; [None] is the
    [ValueError] raised by [int]. *)
Definition py_int (s : string) : option Z :=
  match list_ascii_of_string (strip s) with
  | [] => None
  | c :: l =>
      if Ascii.eqb c "-"%char then
        match l with [] => None | _ => option_map Z.opp (digits_val 0 l) end
      else if Ascii.eqb c "+"%char then
        match l with [] => None | _ => digits_val 0 l end
      else digits_val 0 (c :: l)
  end.

Fixpoint map_option {A B} (f : A -> option B) (l : list A) : option (list B) :=
  match l with
  | [] => Some []
  | x :: l' =>
      match f x, map_option f l' with
      | Some y, Some ys => Some (y :: ys)
      | _, _ => None
      end
  end.

(** Python's ordering of two lists of integers ([a < b]): the first index
    where they differ decides; a proper prefix is smaller. *)
Fixpoint py_list_lt (a b : list Z) : bool :=
  match a, b with
  | [], [] => false
  | [], _ :: _ => true
  | _ :: _, [] => false
  | x :: a', y :: b' => if (x =? y)%Z then py_list_lt a' b' else (x <? y)%Z
  end.

(** [a > b] *)
Definition py_list_gt (a b : list Z) : bool := py_list_lt b a.


(* ------------------------------------------------------------------ *)
(** ** [posixpath] *)

Definition slash : ascii := "/"%char.
Definition is_slash (c : ascii) : bool := Ascii.eqb c slash.

Fixpoint take_while (f : ascii -> bool) (l : list ascii) : list ascii :=
  match l with
  | [] => []
  | c :: l' => if f c then c :: take_while f l' else []
  end.

Fixpoint drop_while (f : ascii -> bool) (l : list ascii) : list ascii :=
  match l with
  | [] => []
  | c :: l' => if f c then drop_while f l' else l
  end.

(** [posixpath.split]: [i = p.rfind('/') + 1]; [head, tail = p[:i], p[i:]];
    trailing slashes are stripped from [head] unless it consists of slashes
    only. *)
Definition split_l (p : list ascii) : list ascii * list ascii :=
  let r := rev p in
  let tail := rev (take_while (fun c => negb (is_slash c)) r) in
  let head := rev (drop_while (fun c => negb (is_slash c)) r) in
  let head' :=
    if forallb is_slash head then head
    else rev (drop_while is_slash (rev head)) in
  (head', tail).

Definition path_split (p : string) : string * string :=
  let (h, t) := split_l (list_ascii_of_string p) in
  (string_of_list_ascii h, string_of_list_ascii t).

Definition dirname (p : string) : string := fst (path_split p).

(** [posixpath.basename]: [p[p.rfind('/') + 1:]] *)
Definition basename (p : string) : string :=
  string_of_list_ascii
    (rev (take_while (fun c => negb (is_slash c)) (rev (list_ascii_of_string p)))).

(** [posixpath.join(a, b)] *)
Definition join (a b : string) : string :=
  if startswith b "/" then b
  else if String.eqb a "" then b
  else if endswith a "/" then a ++ b
  else a ++ "/" ++ b.

Definition join3 (a b c : string) : string := join (join a b) c.

(** [str.lower] on ASCII letters *)
Definition lower_char (c : ascii) : ascii :=
  let n := nat_of_ascii c in
  if ((65 <=? n)%nat && (n <=? 90)%nat) then ascii_of_nat (n + 32) else c.
Definition lower (s : string) : string :=
  string_of_list_ascii (map lower_char (list_ascii_of_string s)).

(** Python's ordering of strings (code points, a proper prefix is smaller)
    and of lists of strings, used by [min] and [max] in [commonpath]. *)
Fixpoint str_lt (a b : string) : bool :=
  match a, b with
  | EmptyString, EmptyString => false
  | EmptyString, String _ _ => true
  | String _ _, EmptyString => false
  | String x a', String y b' =>
      if Ascii.eqb x y then str_lt a' b' else (nat_of_ascii x <? nat_of_ascii y)%nat
  end.

Fixpoint strs_lt (a b : list string) : bool :=
  match a, b with
  | [], [] => false
  | [], _ :: _ => true
  | _ :: _, [] => false
  | x :: a', y :: b' => if String.eqb x y then strs_lt a' b' else str_lt x y
  end.

(** [min] and [max] keep the first of equal elements. *)
Definition py_min (l0 : list string) (ls : list (list string)) : list string :=
  fold_left (fun m x => if strs_lt x m then x else m) ls l0.
Definition py_max (l0 : list string) (ls : list (list string)) : list string :=
  fold_left (fun m x => if strs_lt m x then x else m) ls l0.

Fixpoint common_prefix (s1 s2 : list string) : list string :=
  match s1, s2 with
  | x :: s1', y :: s2' => if String.eqb x y then x :: common_prefix s1' s2' else []
  | _, _ => []
  end.

Fixpoint concat_sep (sep : string) (l : list string) : string :=
  match l with
  | [] => ""
  | [x] => x
  | x :: l' => x ++ sep ++ concat_sep sep l'
  end.

(** [posixpath.commonpath]: [None] is the [ValueError] raised on an empty
    list and on a mix of absolute and relative paths. *)
Definition commonpath (paths : list string) : option string :=
  match paths with
  | [] => None
  | p0 :: ps =>
      let isabs := fun p => startswith p "/" in
      if negb (forallb (fun p => Bool.eqb (isabs p) (isabs p0)) ps) then None
      else
        let comps := fun p => filter (fun c => negb (String.eqb c "" || String.eqb c "."))
                                     (py_split "/" p) in
        let s1 := py_min (comps p0) (map comps ps) in
        let s2 := py_max (comps p0) (map comps ps) in
        let common := common_prefix s1 s2 in
        Some ((if isabs p0 then "/" else "") ++ concat_sep "/" common)
  end.

(** [fnmatch.fnmatch] for patterns whose only magic character is [*]. *)
Fixpoint fnmatch_l (p s : list ascii) : bool :=
  match p with
  | [] => match s with [] => true | _ => false end
  | c :: p' =>
      if Ascii.eqb c "*"%char then
        (fix star (s : list ascii) : bool :=
           fnmatch_l p' s || match s with [] => false | _ :: s' => star s' end) s
      else match s with
           | [] => false
           | c' :: s' => Ascii.eqb c c' && fnmatch_l p' s'
           end
  end.

Definition fnmatch (name pat : string) : bool :=
  fnmatch_l (list_ascii_of_string pat) (list_ascii_of_string name).

(* ------------------------------------------------------------------ *)
(** ** The file system, the observable actions and the exceptions *)

(** Kind of a directory entry; regular files and links to regular files
    carry the identity of their contents. *)
Inductive kind : Type :=
| KDir
| KReg (content : nat)
| KLinkFile (content : nat)
| KLinkDir
| KLinkBroken
| KOther.

Definition fs := list (string * kind).

(** What the script makes observable: its [print] lines, the commands it
    hands to [os.system] and the archives it writes. *)
Inductive event : Type :=
| Downloading (url : string)
| Extracting (filename : string)
| Creating (filename : string)
| CheckingSymbols (filename : string)
| System (command : string)
| TarGzAdd (archive name arcname : string)       (* package.add(name, arcname=...) *)
| MakeArchive (base_name format root_dir base_dir : string).

Record state : Type := mkState {
  st_fs : fs;
  st_cwd : string;
  st_out : list event
}.

Inductive exn : Type :=
| UnsupportedFormat             (* Exception('unsupported package format') *)
| ProblematicSymbol (symbol file : string)
| NonZeroReturn                 (* Exception('non-zero return value') *)
| IndexError
| KeyError
| ValueError
| FileNotFoundError
| FileExistsError
| NotADirectoryError
| IsADirectoryError
| OSError
| ReadError                     (* the archive cannot be opened *)
| URLError
| TransferError                 (* ContentTooShortError, or a connection error
                                   while the body is read *)
| UnboundLocalError.

Inductive res (A : Type) : Type :=
| Ok (a : A)
| Exc (e : exn).
Arguments Ok {A} a.
Arguments Exc {A} e.

(** Python code with exceptions: an exception keeps the effects performed
    before it was raised. *)
Definition M (A : Type) : Type := state -> res A * state.

Definition ret {A} (a : A) : M A := fun s => (Ok a, s).
Definition raise {A} (e : exn) : M A := fun s => (Exc e, s).
Definition bind {A B} (m : M A) (k : A -> M B) : M B :=
  fun s => match m s with
           | (Ok a, s') => k a s'
           | (Exc e, s') => (Exc e, s')
           end.

Notation "x <- m ;; k" := (bind m (fun x => k))
  (at level 61, m at next level, right associativity).
Notation "m ;;; k" := (bind m (fun _ => k))
  (at level 61, right associativity).

Definition gets {A} (f : state -> A) : M A := fun s => (Ok (f s), s).
Definition modify (f : state -> state) : M unit := fun s => (Ok tt, f s).
Definition emit (e : event) : M unit :=
  modify (fun s => mkState (st_fs s) (st_cwd s) (st_out s ++ [e])%list).

(** [try: m except E: pass] for the exceptions selected by [catch]. *)
Definition try_pass (catch : exn -> bool) (m : M unit) : M unit :=
  fun s => match m s with
           | (Exc e, s') => if catch e then (Ok tt, s') else (Exc e, s')
           | r => r
           end.

Fixpoint iter {A} (f : A -> M unit) (l : list A) : M unit :=
  match l with
  | [] => ret tt
  | x :: l' => f x ;;; iter f l'
  end.

(** Path resolution by the kernel: relative paths start at the working
    directory, [.] and empty components are dropped, [..] goes up one
    level.  The empty path names nothing. *)
Definition resolve (cwd p : string) : option string :=
  if String.eqb p "" then None
  else
    let full := if startswith p "/" then p else cwd ++ "/" ++ p in
    let comps :=
      fold_left (fun acc c =>
                   if String.eqb c "" || String.eqb c "." then acc
                   else if String.eqb c ".." then tl acc
                   else c :: acc) (py_split "/" full) [] in
    Some ("/" ++ concat_sep "/" (rev comps)).

(** The root directory always exists. *)
Fixpoint fs_find (t : fs) (k : string) : option kind :=
  if String.eqb k "/" then Some KDir
  else match t with
       | [] => None
       | (k', v) :: t' => if String.eqb k' k then Some v else fs_find t' k
       end.

Definition fs_set (t : fs) (k : string) (v : kind) : fs :=
  (filter (fun e => negb (String.eqb (fst e) k)) t ++ [(k, v)])%list.

Definition fs_del (t : fs) (k : string) : fs :=
  filter (fun e => negb (String.eqb (fst e) k)) t.

Definition fs_del_tree (t : fs) (k : string) : fs :=
  filter (fun e => negb (String.eqb (fst e) k || String.prefix (k ++ "/") (fst e))) t.

Definition lookup (s : state) (p : string) : option kind :=
  match resolve (st_cwd s) p with
  | Some k => fs_find (st_fs s) k
  | None => None
  end.

Definition set_fs (t : fs) : M unit :=
  modify (fun s => mkState t (st_cwd s) (st_out s)).

(** [os.path.isdir], [os.path.isfile] and [os.path.exists] follow links,
    [os.path.islink] does not. *)
Definition isdir_k (k : option kind) : bool :=
  match k with Some KDir | Some KLinkDir => true | _ => false end.
Definition isfile_k (k : option kind) : bool :=
  match k with Some (KReg _) | Some (KLinkFile _) => true | _ => false end.
Definition islink_k (k : option kind) : bool :=
  match k with Some (KLinkFile _) | Some KLinkDir | Some KLinkBroken => true | _ => false end.
Definition exists_k (k : option kind) : bool :=
  match k with None | Some KLinkBroken => false | _ => true end.

Definition isdir (p : string) : M bool := gets (fun s => isdir_k (lookup s p)).
Definition isfile (p : string) : M bool := gets (fun s => isfile_k (lookup s p)).
Definition islink (p : string) : M bool := gets (fun s => islink_k (lookup s p)).
Definition path_exists (p : string) : M bool := gets (fun s => exists_k (lookup s p)).

Definition content_k (k : option kind) : option nat :=
  match k with Some (KReg c) | Some (KLinkFile c) => Some c | _ => None end.

(* ------------------------------------------------------------------ *)
(** ** [os] and [shutil] operations *)

Definition put_entry (key : string) (v : kind) : M unit :=
  t <- gets st_fs ;; set_fs (fs_set t key v).

(** [os.mkdir] *)
Definition mkdir (p : string) : M unit :=
  cwd <- gets st_cwd ;;
  match resolve cwd p with
  | None => raise FileNotFoundError
  | Some key =>
      t <- gets st_fs ;;
      match fs_find t key with
      | Some _ => raise FileExistsError
      | None =>
          match fs_find t (dirname key) with
          | Some KDir | Some KLinkDir => put_entry key KDir
          | None | Some KLinkBroken => raise FileNotFoundError
          | Some _ => raise NotADirectoryError
          end
      end
  end.

Definition is_file_exists (e : exn) : bool :=
  match e with FileExistsError => true | _ => false end.

(** [os.makedirs(name)] *)
Fixpoint makedirs_f (fuel : nat) (name : string) : M unit :=
  match fuel with
  | O => raise OSError
  | S f =>
      let '(head, tail) := path_split name in
      let '(head, tail) := if String.eqb tail "" then path_split head else (head, tail) in
      b <- path_exists head ;;
      if negb (String.eqb head "") && negb (String.eqb tail "") && negb b then
        try_pass is_file_exists (makedirs_f f head) ;;;
        (if String.eqb tail "." then ret tt else mkdir name)
      else mkdir name
  end.

Definition makedirs (name : string) : M unit :=
  makedirs_f (S (String.length name)) name.

(** [os.remove] *)
Definition remove (p : string) : M unit :=
  cwd <- gets st_cwd ;;
  match resolve cwd p with
  | None => raise FileNotFoundError
  | Some key =>
      t <- gets st_fs ;;
      match fs_find t key with
      | None => raise FileNotFoundError
      | Some KDir => raise IsADirectoryError
      | Some _ => set_fs (fs_del t key)
      end
  end.

(** [shutil.rmtree]: refuses symbolic links, removes a directory and
    everything below it. *)
Definition rmtree (p : string) : M unit :=
  cwd <- gets st_cwd ;;
  match resolve cwd p with
  | None => raise FileNotFoundError
  | Some key =>
      t <- gets st_fs ;;
      match fs_find t key with
      | None => raise FileNotFoundError
      | Some KDir => set_fs (fs_del_tree t key)
      | Some (KLinkFile _) | Some KLinkDir | Some KLinkBroken => raise OSError
      | Some _ => raise NotADirectoryError
      end
  end.

(** [os.chdir] *)
Definition chdir (p : string) : M unit :=
  cwd <- gets st_cwd ;;
  match resolve cwd p with
  | None => raise FileNotFoundError
  | Some key =>
      t <- gets st_fs ;;
      if isdir_k (fs_find t key)
      then modify (fun s => mkState (st_fs s) key (st_out s))
      else match fs_find t key with
           | None => raise FileNotFoundError
           | Some _ => raise NotADirectoryError
           end
  end.

(** Creating or overwriting a file. *)
Definition write_file (p : string) (v : kind) : M unit :=
  cwd <- gets st_cwd ;;
  match resolve cwd p with
  | None => raise FileNotFoundError
  | Some key =>
      t <- gets st_fs ;;
      if isdir_k (fs_find t (dirname key)) then
        match fs_find t key with
        | Some KDir => raise IsADirectoryError
        | _ => put_entry key v
        end
      else raise FileNotFoundError
  end.

(** The names of the entries directly inside the directory [key]. *)
Definition child_prefix (key : string) : string :=
  if String.eqb key "/" then "/" else key ++ "/".

Definition child_name (key k : string) : option string :=
  let pre := child_prefix key in
  if String.prefix pre k then
    let name := substring (String.length pre) (String.length k) k in
    if String.eqb name "" || contains "/" name then None else Some name
  else None.

Fixpoint children (key : string) (t : fs) : list string :=
  match t with
  | [] => []
  | (k, _) :: t' =>
      match child_name key k with
      | Some n => n :: children key t'
      | None => children key t'
      end
  end.

Definition is_hidden (name : string) : bool := startswith name ".".


(** [glob.glob(pathname)] for a pathname whose last component is the only
    one with magic characters, and whose only magic character is [*]
    (see [fnmatch]): the directory is listed (nothing when it
    cannot be listed), hidden names are dropped unless the pattern starts
    with a dot, the rest is filtered with [fnmatch] and joined to the
    directory part. *)
Definition glob (pathname : string) : M (list string) :=
  let '(dir, pat) := path_split pathname in
  cwd <- gets st_cwd ;;
  t <- gets st_fs ;;
  let listed :=
    match resolve cwd (if String.eqb dir "" then "." else dir) with
    | Some key => if isdir_k (fs_find t key) then children key t else []
    | None => []
    end in
  let names := if is_hidden pat then listed else filter (fun n => negb (is_hidden n)) listed in
  ret (map (join dir) (filter (fun n => fnmatch n pat) names)).

(* ------------------------------------------------------------------ *)
(** ** The two regular expressions of the script *)

Definition newline : ascii := chr 10.

(** Without [re.MULTILINE], [$] matches at the end of the string and just
    before a newline that ends it; [.] matches anything but a newline.  So a
    match always ends at the end of [re_subject s]. *)
Definition re_subject (s : string) : string :=
  if endswith s (sing newline) then substring 0 (String.length s - 1) s else s.

Definition no_newline (s : string) : bool := negb (contains (sing newline) s).

(** [\.tar(\..+)?|tgz] matched against a whole string *)
Definition tar_alt (m : string) : bool :=
  String.eqb m ".tar" || String.eqb m "tgz" ||
  (String.prefix ".tar." m && (6 <=? String.length m)%nat
   && no_newline (substring 5 (String.length m) m)).

Fixpoint any_suffix (f : string -> bool) (s : string) : bool :=
  f s || match s with EmptyString => false | String _ s' => any_suffix f s' end.

(** [re.search(r'(\.tar(\..+)?|tgz)$', filename)] *)
Definition is_tar_name (filename : string) : bool :=
  any_suffix tar_alt (re_subject filename).

(** [\.(tar(\..* )?|zip)] matched against a whole string *)
Definition pkg_alt (m : string) : bool :=
  String.eqb m ".tar" || String.eqb m ".zip" ||
  (String.prefix ".tar." m && no_newline (substring 5 (String.length m) m)).

(** Index of the leftmost suffix accepted by [f]. *)
Fixpoint first_suffix (f : string -> bool) (s : string) : option nat :=
  if f s then Some 0%nat
  else match s with
       | EmptyString => None
       | String _ s' => option_map S (first_suffix f s')
       end.

(** [re.sub(r'\.(tar(\..* )?|zip)$', '', filename)]: the pattern cannot
    match twice, so the leftmost match is removed. *)
Definition strip_pkg_suffix (filename : string) : string :=
  let subj := re_subject filename in
  match first_suffix pkg_alt subj with
  | Some i => substring 0 i subj ++ substring (String.length subj) (String.length filename) filename
  | None => filename
  end.

(* ------------------------------------------------------------------ *)
(** ** The world outside the script *)

(** The two archive readers: [tarfile] and [zipfile]. *)
Inductive archive_format : Type := TarFormat | ZipFormat.

(** What [urlretrieve] reads from an URL it could open: the whole body, or
    the part read before the transfer broke off. *)
Inductive transfer : Type :=
| Complete (c : nat)
| Interrupted (c : nat).

Record world : Type := mkWorld {
  fetch : string -> option transfer;            (* urlretrieve: [None] when the URL
                                                   cannot be opened *)
  archive_of : archive_format -> nat -> option (list (string * kind));
                                                (* members read by the tar or the zip
                                                   reader from some contents *)
  nm_out : nat -> list string;                  (* output lines of nm on a file *)
  system : string -> string -> fs -> Z * fs;    (* os.system(command) in a directory *)
  getenv : string -> option string;
  platform_system : string                      (* platform.system() *)
}.

(** The contents of the archives written by the script; it never reads
    them back. *)
Definition written_archive : nat := 0.

(** What is left of an archive whose writing stopped at an exception: the
    archive file is closed without its members. *)
Definition unfinished_archive : nat := 3.

(** Two resolved paths name the same entry. *)
Definition same_key (a b : option string) : bool :=
  match a, b with
  | Some x, Some y => String.eqb x y
  | _, _ => false
  end.

Section Script.
Variable w : world.

(** [run(command)] *)
Definition run (command : string) : M unit :=
  emit (System command) ;;;
  s <- gets (fun s => s) ;;
  let '(status, t) := system w command (st_cwd s) (st_fs s) in
  set_fs t ;;;
  if (status =? 0)%Z then ret tt else raise NonZeroReturn.

(** [download_file(url, output_dir)]: [urlretrieve] opens the URL, then
    opens [filename] for writing, then copies the body into it; a transfer
    that breaks off leaves the part already read in the file. *)
Definition download_file (url output_dir : string) : M string :=
  emit (Downloading url) ;;;
  let filename := join output_dir (basename url) in
  match fetch w url with
  | None => raise URLError
  | Some (Complete c) => write_file filename (KReg c) ;;; ret filename
  | Some (Interrupted c) => write_file filename (KReg c) ;;; raise TransferError
  end.

(** [package.extractall(output_dir)]: every member is written below
    [output_dir], its missing parent directories created first. *)
Definition extract_member (output_dir : string) (m : string * kind) : M unit :=
  let target := join output_dir (fst m) in
  let upperdirs := dirname target in
  b <- path_exists upperdirs ;;
  (if negb (String.eqb upperdirs "") && negb b then makedirs upperdirs else ret tt) ;;;
  cwd <- gets st_cwd ;;
  match resolve cwd target with
  | None => raise FileNotFoundError
  | Some key =>
      t <- gets st_fs ;;
      match snd m with
      | KDir => if isdir_k (fs_find t key) then ret tt else put_entry key KDir
      | v => put_entry key v
      end
  end.

Definition extractall (output_dir : string) (members : list (string * kind)) : M unit :=
  iter (extract_member output_dir) members.

(** Opening an archive ([tarfile.open] or [ZipFile]) and listing it
    ([getnames] or [namelist]). *)
Definition open_archive (fmt : archive_format) (filename : string) : M (list (string * kind)) :=
  k <- gets (fun s => lookup s filename) ;;
  match k with
  | None | Some KLinkBroken => raise FileNotFoundError
  | Some KDir | Some KLinkDir => raise IsADirectoryError
  | _ =>
      match option_map (archive_of w fmt) (content_k k) with
      | Some (Some ms) => ret ms
      | _ => raise ReadError
      end
  end.

(** Detect the package format *)
Definition detect_format (filename : string) : M archive_format :=
  if is_tar_name filename then ret TarFormat
  else if endswith filename ".zip" then ret ZipFormat
  else raise UnsupportedFormat.

(** The body of [extract_package] once the format is known. *)
Definition extract_with (fmt : archive_format) (filename output_dir : string) : M unit :=
  members <- open_archive fmt filename ;;
  match commonpath (map fst members) with
  | None => raise ValueError
  | Some common =>
      let output_dir :=
        if String.eqb common (basename output_dir) then dirname output_dir else output_dir in
      b <- isdir output_dir ;;
      (if b then ret tt else makedirs output_dir) ;;;
      extractall output_dir members
  end.

(** [extract_package(filename, output_dir)] *)
Definition extract_package (filename output_dir : string) : M unit :=
  emit (Extracting filename) ;;;
  fmt <- detect_format filename ;;
  extract_with fmt filename output_dir.

(** [create_package(filename, input_dir)].
    - [tarfile.open(filename, "w:gz")] creates the archive file;
      [package.add(input_dir, arcname=...)] skips the archive itself
      ([os.path.abspath(input_dir) == package.name]) and raises on a missing
      [input_dir] ([os.lstat]); leaving the [with] block closes the file,
      complete or not.
    - [shutil.make_archive(base, 'zip', root_dir, base_dir)] raises on a
      [root_dir] that is missing or no directory ([os.stat], or [os.chdir]),
      creates the missing directory of [base], creates [base.zip] with
      [ZipFile], then raises on a missing [base_dir] unless it is [.] or
      empty ([ZipFile.write] calls [os.stat]); the paths below [base_dir]
      are read relative to [root_dir]. *)
Definition create_package (filename input_dir : string) : M unit :=
  emit (Creating filename) ;;;
  if endswith filename ".tar.gz" then
    write_file filename (KReg unfinished_archive) ;;;
    cwd <- gets st_cwd ;;
    (if same_key (resolve cwd input_dir) (resolve cwd filename) then ret tt
     else k <- gets (fun s => lookup s input_dir) ;;
          match k with
          | None => raise FileNotFoundError
          | Some _ => emit (TarGzAdd filename input_dir (basename input_dir))
          end) ;;;
    write_file filename (KReg written_archive)
  else if endswith filename ".zip" then
    let base := substring 0 (String.length filename - 4) filename in
    let root_dir := dirname input_dir in
    let base_dir := basename input_dir in
    k <- gets (fun s => lookup s root_dir) ;;
    (if isdir_k k then ret tt
     else if exists_k k then raise NotADirectoryError else raise FileNotFoundError) ;;;
    let archive_dir := dirname base in
    b <- path_exists archive_dir ;;
    (if negb (String.eqb archive_dir "") && negb b then makedirs archive_dir else ret tt) ;;;
    write_file (base ++ ".zip") (KReg unfinished_archive) ;;;
    k' <- gets (fun s => lookup s (join root_dir base_dir)) ;;
    (if String.eqb base_dir "" || String.eqb base_dir "." || exists_k k'
     then emit (MakeArchive base "zip" root_dir base_dir)
     else raise FileNotFoundError) ;;;
    write_file (base ++ ".zip") (KReg written_archive)
  else raise UnsupportedFormat.

(** One line of [nm "file" | tr ' ' '\n' | grep @@LABEL_]: its version,
    or [None] where unpacking or [int] raises [ValueError]. *)
Definition symbol_version (symbol : string) : option (list Z) :=
  match py_split "@@" symbol with
  | [_; version] =>
      match py_split "_" version with
      | [_; version] => map_option py_int (py_split "." version)
      | _ => None
      end
  | _ => None
  end.

Definition check_symbol_line (filename : string) (max_version : list Z) (line : string)
  : M unit :=
  let symbol := strip line in
  match symbol_version symbol with
  | None => raise ValueError
  | Some version =>
      if py_list_gt version max_version
      then raise (ProblematicSymbol symbol (basename filename))
      else ret tt
  end.

(** The lines of the pipeline: [nm]'s output cut at spaces, those containing
    [@@LABEL_]. *)
Definition symbol_lines (lines : list string) (label : string) : list string :=
  filter (contains ("@@" ++ label ++ "_")) (flat_map (py_split " ") lines).

Definition nm_lines (filename : string) : M (list string) :=
  k <- gets (fun s => lookup s filename) ;;
  match content_k k with
  | Some c => ret (nm_out w c)
  | None => ret []
  end.

(** [check_symbols(filename, label, max_version)] *)
Definition check_symbols (filename label : string) (max_version : list Z) : M unit :=
  lines <- nm_lines filename ;;
  iter (check_symbol_line filename max_version) (symbol_lines lines label).

Definition glibc_max : list Z := [2; 17; 0]%Z.
Definition glibcxx_max : list Z := [3; 4; 19]%Z.
Definition cxxabi_max : list Z := [1; 3; 7]%Z.

(** [check_symbols_linux(filename)] *)
Definition check_symbols_linux (filename : string) : M unit :=
  emit (CheckingSymbols filename) ;;;
  check_symbols filename "GLIBC" glibc_max ;;;
  check_symbols filename "GLIBCXX" glibcxx_max ;;;
  check_symbols filename "CXXABI" cxxabi_max.

Fixpoint filterM {A} (f : A -> M bool) (l : list A) : M (list A) :=
  match l with
  | [] => ret []
  | x :: l' =>
      b <- f x ;;
      r <- filterM f l' ;;
      ret (if b then x :: r else r)
  end.

(* ------------------------------------------------------------------ *)
(** ** [main] *)

Definition ISPC_VERSION : string := "1.13.0".
Definition TBB_VERSION : string := "2020.2".

(** A double quote character, for the quoted paths of the commands. *)
Definition dq : string := sing (chr 34).

Inductive os_kind : Type := Windows | Linux | MacOS.

Definition os_eqb (a b : os_kind) : bool :=
  match a, b with
  | Windows, Windows | Linux, Linux | MacOS, MacOS => true
  | _, _ => false
  end.

(** [OS.upper()] *)
Definition os_upper (o : os_kind) : string :=
  match o with Windows => "WINDOWS" | Linux => "LINUX" | MacOS => "MACOS" end.

(** [{'Windows' : 'windows', 'Linux' : 'linux', 'Darwin' : 'macos'}[platform.system()]] *)
Definition detect_os : M os_kind :=
  let p := platform_system w in
  if String.eqb p "Windows" then ret Windows
  else if String.eqb p "Linux" then ret Linux
  else if String.eqb p "Darwin" then ret MacOS
  else raise KeyError.

(** The parsed command line ([cfg]). *)
Record config : Type := mkConfig {
  cfg_stage : list string;
  cfg_compiler : string;
  cfg_config : string;
  cfg_wrapper : option string;
  cfg_cmake_vars : option (list string)
}.

(** Python truthiness of an optional string *)
Definition truthy (o : option string) : option string :=
  match o with
  | Some v => if String.eqb v "" then None else Some v
  | None => None
  end.

(** Set up ISPC: download and extract it unless its directory exists;
    the result is [ispc_executable]. *)
Definition setup_ispc (OS : os_kind) (deps_dir : string) : M string :=
  let ispc_release := "ispc-v" ++ ISPC_VERSION ++ "-" ++
    match OS with Windows => "windows" | Linux => "linux" | MacOS => "macOS" end in
  let ispc_dir := join deps_dir ispc_release in
  b <- isdir ispc_dir ;;
  (if b then ret tt
   else
     let ispc_url := "https://github.com/ispc/ispc/releases/download/v" ++ ISPC_VERSION
                     ++ "/" ++ ispc_release
                     ++ (if os_eqb OS Windows then ".zip" else ".tar.gz") in
     ispc_filename <- download_file ispc_url deps_dir ;;
     extract_package ispc_filename ispc_dir ;;;
     remove ispc_filename) ;;;
  ret (join3 ispc_dir "bin" "ispc").

(** Set up TBB: download and extract it unless its directory exists;
    the result is [tbb_root]. *)
Definition setup_tbb (OS : os_kind) (deps_dir : string) : M string :=
  let tbb_release := "tbb-" ++ TBB_VERSION ++ "-" ++
    match OS with Windows => "win" | Linux => "lin" | MacOS => "mac" end in
  let tbb_dir := join deps_dir tbb_release in
  b <- isdir tbb_dir ;;
  (if b then ret tt
   else
     let tbb_url := "https://github.com/oneapi-src/oneTBB/releases/download/v" ++ TBB_VERSION
                    ++ "/" ++ tbb_release
                    ++ (if os_eqb OS Windows then ".zip" else ".tgz") in
     tbb_filename <- download_file tbb_url deps_dir ;;
     extract_package tbb_filename tbb_dir ;;;
     remove tbb_filename) ;;;
  ret (join tbb_dir "tbb").

(** The Windows compiler loop: [msvc_version] (unset at first) and
    [toolchain] after the components of [cfg.compiler.split('-')]. *)
Fixpoint windows_toolset (comps : list string) (msvc_version : option string)
         (toolchain : string) : M (option string * string) :=
  match comps with
  | [] => ret (msvc_version, toolchain)
  | c :: comps' =>
      if startswith c "msvc" then
        if String.eqb c "msvc15" then windows_toolset comps' (Some "15 2017") toolchain
        else if String.eqb c "msvc16" then windows_toolset comps' (Some "16 2019") toolchain
        else raise KeyError
      else if startswith c "icc" then
        let icc_version := substring 3 (String.length c) c in
        windows_toolset comps' msvc_version ("Intel C++ Compiler " ++ icc_version ++ ".0")
      else windows_toolset comps' msvc_version toolchain
  end.

(** [{'gcc' : 'g++', 'clang' : 'clang++', 'icc' : 'icpc'}[cc]] *)
Definition cxx_of (cc : string) : M string :=
  if String.eqb cc "gcc" then ret "g++"
  else if String.eqb cc "clang" then ret "clang++"
  else if String.eqb cc "icc" then ret "icpc"
  else raise KeyError.

(** The build stage once ISPC and TBB are set up. *)
Definition build_with (OS : os_kind) (cfg : config) (build_dir ispc_executable tbb_root : string)
  : M unit :=
  (* Create a clean build directory *)
  b <- isdir build_dir ;;
  (if b then rmtree build_dir else ret tt) ;;;
  mkdir build_dir ;;;
  chdir build_dir ;;;
  let cmake_vars :=
    "-D TBB_ROOT=" ++ dq ++ tbb_root ++ dq ++ " " ++
    match cfg_cmake_vars cfg with
    | Some vars => String.concat "" (map (fun var => "-D " ++ var ++ " ") vars)
    | None => ""
    end in
  build_cmd <-
    (if os_eqb OS Windows then
       tc <- windows_toolset (py_split "-" (cfg_compiler cfg)) None "" ;;
       match fst tc with
       | None => raise UnboundLocalError
       | Some msvc_version =>
           run ("cmake -L " ++
                "-G " ++ dq ++ "Visual Studio " ++ msvc_version ++ " Win64" ++ dq ++ " " ++
                "-T " ++ dq ++ snd tc ++ dq ++ " " ++
                "-D ISPC_EXECUTABLE=" ++ dq ++ ispc_executable ++ ".exe" ++ dq ++ " " ++
                cmake_vars ++ "..") ;;;
           ret ("cmake --build . --config " ++ cfg_config cfg ++ " --target ALL_BUILD")
       end
     else
       let cc0 := cfg_compiler cfg in
       cxx0 <- cxx_of cc0 ;;
       let '(cc, cxx) :=
         if String.eqb cc0 "icc" then
           match truthy (getenv w ("OIDN_ICC_DIR_" ++ os_upper OS)) with
           | Some icc_dir => (join icc_dir cc0, join icc_dir cxx0)
           | None => (cc0, cxx0)
           end
         else (cc0, cxx0) in
       run ("cmake -L " ++
            "-D CMAKE_C_COMPILER:FILEPATH=" ++ dq ++ cc ++ dq ++ " " ++
            "-D CMAKE_CXX_COMPILER:FILEPATH=" ++ dq ++ cxx ++ dq ++ " " ++
            "-D CMAKE_BUILD_TYPE=" ++ cfg_config cfg ++ " " ++
            "-D ISPC_EXECUTABLE=" ++ dq ++ ispc_executable ++ dq ++ " " ++
            cmake_vars ++ "..") ;;;
       ret "cmake --build . --target preinstall -- -j VERBOSE=1") ;;
  let build_cmd :=
    match truthy (cfg_wrapper cfg) with
    | Some wrapper => wrapper ++ " " ++ build_cmd
    | None => build_cmd
    end in
  run build_cmd.

Definition build_stage (OS : os_kind) (cfg : config) (deps_dir build_dir : string) : M unit :=
  ispc_executable <- setup_ispc OS deps_dir ;;
  tbb_root <- setup_tbb OS deps_dir ;;
  build_with OS cfg build_dir ispc_executable tbb_root.

(** Get the list of binaries *)
Definition find_binaries (OS : os_kind) (package_dir : string) : M (list string) :=
  bins <- glob (join3 package_dir "bin" "*") ;;
  libs <- (match OS with
           | Linux => glob (join3 package_dir "lib" "*.so*")
           | MacOS => glob (join3 package_dir "lib" "*.dylib")
           | Windows => ret []
           end) ;;
  filterM (fun f => a <- isfile f ;; l <- islink f ;; ret (a && negb l)) (bins ++ libs)%list.

(** Check the symbols in the binaries *)
Definition check_binaries (OS : os_kind) (binaries : list string) : M unit :=
  if os_eqb OS Linux then iter check_symbols_linux binaries else ret tt.

(** Sign the binaries and repack *)
Definition sign_and_repack (OS : os_kind) (binaries : list string)
           (package_filename package_dir : string) : M unit :=
  match truthy (getenv w ("OIDN_SIGN_FILE_" ++ os_upper OS)) with
  | Some sign_file =>
      iter (fun filename => run (sign_file ++ " -q -vv " ++ filename)) binaries ;;;
      remove package_filename ;;;
      create_package package_filename package_dir
  | None => ret tt
  end.

(** Find, check and sign the binaries of the extracted package. *)
Definition inspect_and_sign (OS : os_kind) (package_filename package_dir : string) : M unit :=
  binaries <- find_binaries OS package_dir ;;
  check_binaries OS binaries ;;;
  sign_and_repack OS binaries package_filename package_dir.

(** The package stage after the extraction of the package. *)
Definition package_after_extract (OS : os_kind) (package_filename : string) : M unit :=
  let package_dir := strip_pkg_suffix package_filename in
  inspect_and_sign OS package_filename package_dir ;;;
  (* Delete the extracted package *)
  rmtree package_dir.

(** The package stage from the glob for the package on. *)
Definition package_from_glob (OS : os_kind) (build_dir : string) : M unit :=
  matches <- glob (join build_dir "oidn-*") ;;
  match matches with
  | [] => raise IndexError
  | package_filename :: _ =>
      extract_package package_filename build_dir ;;;
      package_after_extract OS package_filename
  end.

Definition package_stage (OS : os_kind) (cfg : config) (build_dir : string) : M unit :=
  chdir build_dir ;;;
  run "cmake -L -D OIDN_ZIP_MODE=ON .." ;;;
  (if os_eqb OS Windows
   then run ("cmake --build . --config " ++ cfg_config cfg ++ " --target PACKAGE")
   else run "cmake --build . --target package -- -j VERBOSE=1") ;;;
  package_from_glob OS build_dir.

(** Set the directories: [root_dir] and the creation of [deps_dir]. *)
Definition root_dir_of : M string :=
  match truthy (getenv w "OIDN_ROOT_DIR") with
  | Some r => ret r
  | None => gets st_cwd
  end.

Definition main (cfg : config) : M unit :=
  OS <- detect_os ;;
  root_dir <- root_dir_of ;;
  let deps_dir := join root_dir "deps" in
  b <- isdir deps_dir ;;
  (if b then ret tt else makedirs deps_dir) ;;;
  let build_dir := join root_dir ("build_" ++ lower (cfg_config cfg)) in
  (if existsb (String.eqb "build") (cfg_stage cfg)
   then build_stage OS cfg deps_dir build_dir else ret tt) ;;;
  (if existsb (String.eqb "package") (cfg_stage cfg)
   then package_stage OS cfg build_dir else ret tt).

End Script.

(* ================================================================== *)
(** * Properties *)

(** Lexicographic order on integer lists, as usually defined: [v] is above
    [m] when at the first place where they differ [v] has the larger
    component, or when [m] is a proper prefix of [v]. *)
Definition lex_gt (v m : list Z) : Prop :=
  (exists p a b v' m', v = (p ++ a :: v')%list /\ m = (p ++ b :: m')%list /\ (b < a)%Z)
  \/ (exists x v', v = (m ++ x :: v')%list).

(** The ceilings of [check_symbols_linux], one per ABI label. *)
Definition ceilings : list (string * list Z) :=
  [("GLIBC", glibc_max); ("GLIBCXX", glibcxx_max); ("CXXABI", cxxabi_max)].

Definition is_problematic {A} (r : res A) : bool :=
  match r with Exc (ProblematicSymbol _ _) => true | _ => false end.

(** The outcome of the loop of [check_symbols] over its lines. *)
Fixpoint check_lines (filename : string) (max_version : list Z) (ls : list string) : res unit :=
  match ls with
  | [] => Ok tt
  | l :: ls' =>
      match symbol_version (strip l) with
      | None => Exc ValueError
      | Some v =>
          if py_list_gt v max_version
          then Exc (ProblematicSymbol (strip l) (basename filename))
          else check_lines filename max_version ls'
      end
  end.

(** ** Which exceptions a computation may raise *)

Definition raises_only {A} (P : exn -> Prop) (m : M A) : Prop :=
  forall s, match fst (m s) with Exc e => P e | Ok _ => True end.

Definition not_unsupported (e : exn) : Prop := e <> UnsupportedFormat.

(** ** Globbing and the kinds of the binaries *)

Definition glob_of (s : state) (pathname : string) : list string :=
  match fst (glob pathname s) with Ok l => l | Exc _ => [] end.

Definition is_regular (k : option kind) : bool :=
  match k with Some (KReg _) => true | _ => false end.

(** ** What a computation adds to the observable output *)

Definition out_grows {A} (P : event -> Prop) (m : M A) : Prop :=
  forall s, exists l, st_out (snd (m s)) = (st_out s ++ l)%list /\ Forall P l.

Definition is_system (e : event) : Prop := match e with System _ => True | _ => False end.

(** ** The directories [os.makedirs] may create *)

Definition option_eq_dec_kind (a b : option kind) : {a = b} + {a <> b}.
Proof. decide equality. decide equality; apply Nat.eq_dec. Defined.

(** [q] is a leading part of the path [p]: [p] is [q] followed by nothing,
    by a separator, or [q] itself ends with a separator.  [os.makedirs(p)]
    recurses on such parts. *)
Definition leading_l (q p : list ascii) : Prop :=
  exists r, p = (q ++ r)%list /\
    (r = [] \/ (exists r', r = slash :: r') \/ (exists q', q = (q' ++ [slash])%list)).

Definition leading_part (q p : string) : Prop :=
  leading_l (list_ascii_of_string q) (list_ascii_of_string p).

(** From [s] to [s'] the working directory and the output are unchanged and
    the only entries that changed are new directories, each the resolution
    of a leading part of [name]. *)
Definition fs_grown (name : string) (s s' : state) : Prop :=
  st_cwd s' = st_cwd s /\ st_out s' = st_out s /\
  forall k, fs_find (st_fs s') k <> fs_find (st_fs s) k ->
    fs_find (st_fs s) k = None /\ fs_find (st_fs s') k = Some KDir /\
    exists q, leading_part q name /\ resolve (st_cwd s) q = Some k.

(** ** Sample runs *)

(** Command lines: no stage, and the package stage alone. *)
Definition cfg_none : config := mkConfig [] "gcc" "Release" None None.
Definition cfg_package : config := mkConfig ["package"] "gcc" "Release" None None.

Definition env_of (l : list (string * string)) (v : string) : option string :=
  match find (fun e => String.eqb (fst e) v) l with
  | Some (_, x) => Some x
  | None => None
  end.

(** [OIDN_ROOT_DIR=/r] on an empty file system. *)
Definition world_root_r : world := {|
  fetch := fun _ => None;
  archive_of := fun _ _ => None;
  nm_out := fun _ => [];
  system := fun _ _ t => (0%Z, t);
  getenv := env_of [("OIDN_ROOT_DIR", "/r")];
  platform_system := "Linux" |}.

Definition state_empty : state := mkState [] "/" [].

(** A Linux package with one binary, signed by a tool that fails. *)
Definition pkg_members : list (string * kind) :=
  [("oidn-1.2.0.x86_64.linux", KDir);
   ("oidn-1.2.0.x86_64.linux/bin", KDir);
   ("oidn-1.2.0.x86_64.linux/bin/oidnDenoise", KReg 2)].

Definition pkg_file : string := "/r/build_release/oidn-1.2.0.x86_64.linux.tar.gz".
Definition pkg_dir : string := "/r/build_release/oidn-1.2.0.x86_64.linux".

Definition world_pkg (env : list (string * string)) : world := {|
  fetch := fun _ => None;
  archive_of := fun fmt c =>
    match fmt with TarFormat => if Nat.eqb c 1 then Some pkg_members else None
                 | ZipFormat => None end;
  nm_out := fun _ => ["memcpy@@GLIBC_2.14"];
  system := fun cmd _ t => (if startswith cmd "cmake" then 0%Z else 1%Z, t);
  getenv := env_of env;
  platform_system := "Linux" |}.

Definition world_sign_fails : world :=
  world_pkg [("OIDN_ROOT_DIR", "/r"); ("OIDN_SIGN_FILE_LINUX", "sign")].
Definition world_no_sign : world := world_pkg [("OIDN_ROOT_DIR", "/r")].

(** The build directory after the package was built. *)
Definition state_built : state :=
  mkState [("/r", KDir); ("/r/deps", KDir); ("/r/build_release", KDir);
           (pkg_file, KReg 1)] "/r/build_release" [].

(** The same after the package was extracted. *)
Definition state_extracted : state :=
  snd (extract_package world_no_sign pkg_file "/r/build_release" state_built).

(** Both dependencies already present. *)
Definition state_deps : state :=
  mkState [("/r", KDir); ("/r/deps", KDir); ("/r/deps/ispc-v1.13.0-linux", KDir);
           ("/r/deps/tbb-2020.2-lin", KDir)] "/r" [].

(** A tar archive whose members are below [foo/], in [/w]. *)
Definition world_foo_tar : world := {|
  fetch := fun _ => None;
  archive_of := fun fmt c =>
    match fmt with
    | TarFormat => if Nat.eqb c 1 then Some [("foo", KDir); ("foo/a", KReg 2)] else None
    | ZipFormat => None
    end;
  nm_out := fun _ => [];
  system := fun _ _ t => (0%Z, t);
  getenv := fun _ => None;
  platform_system := "Linux" |}.

Definition state_foo_tar : state := mkState [("/w", KDir); ("/w/foo.tar", KReg 1)] "/w" [].

(** A library whose [nm] output has two GLIBC symbols. *)
Definition world_nm : world := {|
  fetch := fun _ => None;
  archive_of := fun _ _ => None;
  nm_out := fun _ => ["U memcpy@@GLIBC_2.14"; "U open@@GLIBC_2.18"; "U f@@GLIBC_2.17"];
  system := fun _ _ t => (0%Z, t);
  getenv := fun _ => None;
  platform_system := "Linux" |}.

(** A library whose only GLIBC symbol has the version 2.17. *)
Definition world_prefix : world := {|
  fetch := fun _ => None;
  archive_of := fun _ _ => None;
  nm_out := fun _ => ["U f@@GLIBC_2.17"; "U g@@CXXABI_1.3"];
  system := fun _ _ t => (0%Z, t);
  getenv := fun _ => None;
  platform_system := "Linux" |}.

Definition state_lib : state := mkState [("/lib.so", KReg 7)] "/" [].

(** ** Effects of computations, and the sample runs of the further properties *)

(** [m] relates every state to the state it leaves. *)
Definition preserves {A} (R : state -> state -> Prop) (m : M A) : Prop :=
  forall s, R s (snd (m s)).

(** The working directory is unchanged and no entry disappears. *)
Definition keeps_entries (s s' : state) : Prop :=
  st_cwd s' = st_cwd s /\
  forall k, fs_find (st_fs s) k <> None -> fs_find (st_fs s') k <> None.

(** Nothing is printed and no command is run. *)
Definition same_out (s s' : state) : Prop := st_out s' = st_out s.

(** Neither the output nor the working directory change. *)
Definition frame (s s' : state) : Prop := st_out s' = st_out s /\ st_cwd s' = st_cwd s.

(** A computation that raises an exception satisfying [P] and emits nothing. *)
Definition fails_quietly {A} (P : exn -> Prop) (m : M A) : Prop :=
  forall s, st_out (snd (m s)) = st_out s /\ exists e, fst (m s) = Exc e /\ P e.

(** The exceptions of the build before its first command. *)
Definition build_exn (e : exn) : Prop :=
  In e [KeyError; UnboundLocalError; FileNotFoundError; FileExistsError;
        NotADirectoryError; OSError].

(** The two dependency archives, and a world that serves them, signs with
    [signtool] and lists one unparsable GLIBC symbol. *)
Definition ispc_members : list (string * kind) :=
  [("ispc-v1.13.0-linux", KDir); ("ispc-v1.13.0-linux/bin", KDir);
   ("ispc-v1.13.0-linux/bin/ispc", KReg 6)].
Definition tbb_members : list (string * kind) :=
  [("tbb-2020.2-lin", KDir); ("tbb-2020.2-lin/tbb", KDir)].

Definition world_dl : world := {|
  fetch := fun url =>
    if startswith url "https://github.com/ispc/" then Some (Complete 5) else Some (Complete 7);
  archive_of := fun fmt c =>
    match fmt with
    | TarFormat =>
        if Nat.eqb c 5 then Some ispc_members
        else if Nat.eqb c 7 then Some tbb_members
        else if Nat.eqb c 9 then Some [("/etc/x", KReg 1); ("y", KReg 2)]
        else None
    | ZipFormat => None
    end;
  nm_out := fun _ => ["U f@@GLIBC_2.14"; "U g@@GLIBC_PRIVATE"];
  system := fun _ _ t => (0%Z, t);
  getenv := env_of [("OIDN_ROOT_DIR", "/r"); ("OIDN_SIGN_FILE_LINUX", "signtool")];
  platform_system := "Linux" |}.

(** A platform the script does not know. *)
Definition world_bsd : world :=
  {| fetch := fetch world_root_r; archive_of := archive_of world_root_r;
     nm_out := nm_out world_root_r; system := system world_root_r;
     getenv := getenv world_root_r; platform_system := "FreeBSD" |}.

(** The root directory [/r] with its [deps] directory. *)
Definition state_r : state := mkState [("/r", KDir); ("/r/deps", KDir)] "/r" [].

(** A build behind [ccache] with one extra CMake variable. *)
Definition cfg_build_ccache : config :=
  mkConfig ["build"] "gcc" "Release" (Some "ccache") (Some ["OIDN_APPS=OFF"]).

(** An archive mixing an absolute and a relative member. *)
Definition state_mixed : state := mkState [("/r", KDir); ("/r/m.tar", KReg 9)] "/r" [].

(** A package and its extracted directory. *)
Definition state_pkg : state := mkState [("/p", KDir); ("/p.tar.gz", KReg 1)] "/" [].

(* ================================================================== *)
(** * Lemmas and theorems *)

Lemma py_list_lt_lex (m v : list Z) : py_list_lt m v = true <-> lex_gt v m.
Proof.
  revert m; induction v as [|a v IH]; intros m.
  - split.
    + destruct m; simpl; discriminate.
    + intros [(p & a & b & v' & m' & Hv & _ & _)|(x & v' & Hv)].
      * destruct p; discriminate.
      * destruct m; discriminate.
  - destruct m as [|b m].
    + simpl; split; intros _; [right; exists a, v; reflexivity|reflexivity].
    + simpl. destruct (Z.eqb_spec b a) as [->|Hne].
      * rewrite IH. split.
        -- intros [(p & a' & b' & v' & m' & Hv & Hm & Hlt)|(x & v' & Hv)].
           ++ left; exists (a :: p), a', b', v', m'; subst; auto.
           ++ right; exists x, v'; subst; reflexivity.
        -- intros [(p & a' & b' & v' & m' & Hv & Hm & Hlt)|(x & v' & Hv)].
           ++ destruct p as [|c p].
              ** simpl in *. inversion Hv; inversion Hm; subst; lia.
              ** simpl in *. inversion Hv; inversion Hm; subst.
                 left; exists p, a', b', v', m'; auto.
           ++ right; exists x, v'; inversion Hv; reflexivity.
      * split.
        -- intro H; apply Z.ltb_lt in H. left; exists [], a, b, v, m; auto.
        -- intros [(p & a' & b' & v' & m' & Hv & Hm & Hlt)|(x & v' & Hv)].
           ++ destruct p as [|c p]; simpl in *;
                inversion Hv; inversion Hm; subst; [apply Z.ltb_lt; exact Hlt|congruence].
           ++ inversion Hv; congruence.
Qed.

Lemma iter_check_lines (filename : string) (max_version : list Z) (ls : list string) (s : state) :
  iter (check_symbol_line filename max_version) ls s = (check_lines filename max_version ls, s).
Proof.
  revert s; induction ls as [|l ls IH]; intros s; simpl; [reflexivity|].
  unfold bind, check_symbol_line, raise, ret.
  destruct (symbol_version (strip l)); [|reflexivity].
  destruct (py_list_gt l0 max_version); [reflexivity|]. apply IH.
Qed.

Lemma check_symbols_eq (w : world) (filename label : string) (max_version : list Z) (s : state) :
  check_symbols w filename label max_version s =
  (check_lines filename max_version
     (symbol_lines (match content_k (lookup s filename) with
                    | Some c => nm_out w c | None => [] end) label), s).
Proof.
  unfold check_symbols, nm_lines, bind, gets.
  destruct (content_k (lookup s filename)); apply iter_check_lines.
Qed.

(** When every line parses, the loop stops with the problematic-symbol
    error exactly when a line's version is above the ceiling, and
    otherwise succeeds. *)
Lemma check_lines_parsed (filename : string) (max_version : list Z) (ls : list string) :
  (forall l, In l ls -> exists v, symbol_version (strip l) = Some v) ->
  (check_lines filename max_version ls = Ok tt \/ is_problematic (check_lines filename max_version ls) = true)
  /\ (is_problematic (check_lines filename max_version ls) = true <->
      exists l v, In l ls /\ symbol_version (strip l) = Some v /\ lex_gt v max_version).
Proof.
  induction ls as [|l ls IH]; intros Hall.
  - simpl. split; [left; reflexivity|]. split; [discriminate|]. intros (l & v & [] & _).
  - destruct (Hall l (or_introl eq_refl)) as [v Hv].
    destruct IH as [IH1 IH2]; [intros l' Hl'; apply Hall; right; exact Hl'|].
    simpl. rewrite Hv. unfold py_list_gt.
    destruct (py_list_lt max_version v) eqn:Hlt.
    + split; [right; reflexivity|]. split; [intros _|reflexivity].
      exists l, v; split; [left; reflexivity|split; [exact Hv|apply py_list_lt_lex; exact Hlt]].
    + split; [exact IH1|]. rewrite IH2. split.
      * intros (l' & v' & Hin & Hv' & Hgt). exists l', v'; auto.
      * intros (l' & v' & [Heq|Hin] & Hv' & Hgt).
        -- subst l'. rewrite Hv in Hv'. inversion Hv'; subst v'.
           apply py_list_lt_lex in Hgt. congruence.
        -- exists l', v'; auto.
Qed.

Lemma check_symbols_linux_eq (w : world) (filename : string) (s : state) :
  let lines := match content_k (lookup s filename) with Some c => nm_out w c | None => [] end in
  fst (check_symbols_linux w filename s) =
  match check_lines filename glibc_max (symbol_lines lines "GLIBC") with
  | Ok _ =>
      match check_lines filename glibcxx_max (symbol_lines lines "GLIBCXX") with
      | Ok _ => check_lines filename cxxabi_max (symbol_lines lines "CXXABI")
      | Exc e => Exc e
      end
  | Exc e => Exc e
  end.
Proof.
  intros lines. unfold check_symbols_linux, emit, modify, bind.
  rewrite check_symbols_eq. cbn [lookup st_cwd st_fs] in *.
  destruct (check_lines filename glibc_max _); [|reflexivity].
  rewrite check_symbols_eq. cbn [lookup st_cwd st_fs].
  destruct (check_lines filename glibcxx_max _); [|reflexivity].
  rewrite check_symbols_eq. reflexivity.
Qed.

(** ** C1
    For every symbol of a binary carrying one of the three ABI labels, with
    a version that parses as a dotted list of integers, [check_symbols_linux]
    raises the problematic-symbol error exactly when some such version is
    lexicographically above its label's ceiling; against the GLIBC ceiling
    (2,17,0), 2.17.0 and 2.16.99 pass while 2.17.1 and 3.0.0 fail. *)
Theorem check_symbols_linux_ceiling (w : world) (filename : string) (s : state) :
  let lines := match content_k (lookup s filename) with Some c => nm_out w c | None => [] end in
  (forall label ceiling l, In (label, ceiling) ceilings -> In l (symbol_lines lines label) ->
     exists v, symbol_version (strip l) = Some v) ->
  (is_problematic (fst (check_symbols_linux w filename s)) = true <->
   exists label ceiling l v, In (label, ceiling) ceilings /\ In l (symbol_lines lines label)
     /\ symbol_version (strip l) = Some v /\ lex_gt v ceiling)
  /\ py_list_gt [2; 17; 0]%Z glibc_max = false
  /\ py_list_gt [2; 16; 99]%Z glibc_max = false
  /\ py_list_gt [2; 17; 1]%Z glibc_max = true
  /\ py_list_gt [3; 0; 0]%Z glibc_max = true.
Proof.
  intros lines Hparse.
  split; [|repeat split; reflexivity].
  rewrite check_symbols_linux_eq. fold lines.
  destruct (check_lines_parsed filename glibc_max (symbol_lines lines "GLIBC")
              (fun l => Hparse "GLIBC" glibc_max l ltac:(simpl; auto))) as [G1 G2].
  destruct (check_lines_parsed filename glibcxx_max (symbol_lines lines "GLIBCXX")
              (fun l => Hparse "GLIBCXX" glibcxx_max l ltac:(simpl; auto))) as [X1 X2].
  destruct (check_lines_parsed filename cxxabi_max (symbol_lines lines "CXXABI")
              (fun l => Hparse "CXXABI" cxxabi_max l ltac:(simpl; auto))) as [A1 A2].
  assert (Hsplit : forall P : string -> list Z -> Prop,
             (exists label ceiling, In (label, ceiling) ceilings /\ P label ceiling) <->
             P "GLIBC" glibc_max \/ P "GLIBCXX" glibcxx_max \/ P "CXXABI" cxxabi_max).
  { intros P; split.
    - intros (label & ceiling & Hin & HP); simpl in Hin.
      destruct Hin as [Hin|[Hin|[Hin|[]]]]; inversion Hin; subst; tauto.
    - intros [HP|[HP|HP]]; eexists; eexists; (split; [|exact HP]); simpl; tauto. }
  transitivity (exists label ceiling, In (label, ceiling) ceilings /\
                  exists l v, In l (symbol_lines lines label)
                    /\ symbol_version (strip l) = Some v /\ lex_gt v ceiling).
  2:{ split.
      - intros (label & ceiling & Hin & l & v & H). exists label, ceiling, l, v; tauto.
      - intros (label & ceiling & l & v & Hin & H). exists label, ceiling; split; [exact Hin|].
        exists l, v; exact H. }
  rewrite (Hsplit (fun label ceiling => exists l v, In l (symbol_lines lines label)
                    /\ symbol_version (strip l) = Some v /\ lex_gt v ceiling)).
  rewrite <- G2, <- X2, <- A2.
  destruct G1 as [G1|G1]; rewrite G1; [|destruct (check_lines filename glibc_max _); simpl in *; [discriminate|]; destruct e; simpl in *; try discriminate; tauto].
  destruct X1 as [X1|X1]; rewrite X1; [|destruct (check_lines filename glibcxx_max _); simpl in *; [discriminate|]; destruct e; simpl in *; try discriminate; tauto].
  simpl. split; [intros H; right; right; exact H|intros [H|[H|H]]; [discriminate|discriminate|exact H]].
Qed.

Lemma py_list_lt_prefix (v t : list Z) :
  t <> [] -> py_list_lt v (v ++ t)%list = true /\ py_list_lt (v ++ t)%list v = false.
Proof.
  intros Ht; induction v as [|a v IH]; simpl.
  - destruct t; [congruence|]. split; reflexivity.
  - rewrite Z.eqb_refl. exact IH.
Qed.

(** ** C9
    A symbol whose dotted version is a proper prefix of the ceiling (for
    instance 2.17 against (2,17,0)) is ranked below the ceiling, so
    [check_symbols] raises nothing for a file whose symbol lines all have
    such versions. *)
Theorem prefix_version_passes (w : world) (filename label : string) (ceiling : list Z)
    (s : state) :
  let lines := match content_k (lookup s filename) with Some c => nm_out w c | None => [] end in
  (forall l, In l (symbol_lines lines label) ->
     exists v t, symbol_version (strip l) = Some v /\ ceiling = (v ++ t)%list /\ t <> []) ->
  fst (check_symbols w filename label ceiling s) = Ok tt
  /\ (forall l v, In l (symbol_lines lines label) -> symbol_version (strip l) = Some v ->
        py_list_lt v ceiling = true).
Proof.
  intros lines H. split.
  - rewrite check_symbols_eq. fold lines. simpl.
    induction (symbol_lines lines label) as [|l ls IH]; [reflexivity|].
    simpl. destruct (H l (or_introl eq_refl)) as (v & t & Hv & -> & Ht).
    rewrite Hv. unfold py_list_gt. rewrite (proj2 (py_list_lt_prefix v t Ht)).
    apply IH. intros l' Hl'. apply H. right; exact Hl'.
  - intros l v Hl Hv. destruct (H l Hl) as (v' & t & Hv' & -> & Ht).
    rewrite Hv in Hv'. inversion Hv'; subst v'.
    exact (proj1 (py_list_lt_prefix v t Ht)).
Qed.

(** ** Which exceptions a computation may raise *)

Section RaisesOnly.
Variable P : exn -> Prop.

Lemma ro_ret {A} (a : A) : raises_only P (ret a).
Proof. intros s; exact I. Qed.

Lemma ro_raise {A} (e : exn) : P e -> raises_only P (@raise A e).
Proof. intros H s; exact H. Qed.

Lemma ro_bind {A B} (m : M A) (k : A -> M B) :
  raises_only P m -> (forall a, raises_only P (k a)) -> raises_only P (bind m k).
Proof.
  intros Hm Hk s. unfold bind. specialize (Hm s).
  destruct (m s) as [[a|e] s']; [apply Hk|exact Hm].
Qed.

Lemma ro_gets {A} (f : state -> A) : raises_only P (gets f).
Proof. intros s; exact I. Qed.

Lemma ro_modify (f : state -> state) : raises_only P (modify f).
Proof. intros s; exact I. Qed.

Lemma ro_try_pass (c : exn -> bool) (m : M unit) :
  raises_only P m -> raises_only P (try_pass c m).
Proof.
  intros Hm s. unfold try_pass. specialize (Hm s).
  destruct (m s) as [[a|e] s']; [exact I|]. destruct (c e); [exact I|exact Hm].
Qed.

Lemma ro_iter {A} (f : A -> M unit) (l : list A) :
  (forall a, raises_only P (f a)) -> raises_only P (iter f l).
Proof.
  intros Hf; induction l as [|a l IH]; simpl; [apply ro_ret|].
  apply ro_bind; [apply Hf|intros _; exact IH].
Qed.

Lemma ro_filterM {A} (f : A -> M bool) (l : list A) :
  (forall a, raises_only P (f a)) -> raises_only P (filterM f l).
Proof.
  intros Hf; induction l as [|a l IH]; simpl; [apply ro_ret|].
  apply ro_bind; [apply Hf|intros b; apply ro_bind; [exact IH|intros r; apply ro_ret]].
Qed.

End RaisesOnly.

Create HintDb raises.
#[export] Hint Resolve ro_ret ro_gets ro_modify : raises.

(** Walks through a computation: binds, pure branches, and the raised
    exceptions, the last ones left to [solve_exn]. *)
Ltac ro_walk solve_exn :=
  repeat match goal with
  | |- raises_only _ (bind _ _) => apply ro_bind; [|intro]
  | |- raises_only _ (try_pass _ _) => apply ro_try_pass
  | |- raises_only _ (raise _) => apply ro_raise; solve_exn
  | |- raises_only _ (ret _) => apply ro_ret
  | |- raises_only _ (gets _) => apply ro_gets
  | |- raises_only _ (modify _) => apply ro_modify
  | |- raises_only _ (match ?x with _ => _ end) => destruct x
  | |- raises_only _ (iter _ _) => apply ro_iter; intro
  | |- raises_only _ (filterM _ _) => apply ro_filterM; intro
  | |- raises_only _ (fun s => _) => intros ?s; exact I
  | _ => solve [eauto with raises]
  end.

Ltac nu := unfold not_unsupported; discriminate.

Lemma nu_mkdir (p : string) : raises_only not_unsupported (mkdir p).
Proof. unfold mkdir, put_entry, set_fs. ro_walk nu. Qed.
#[export] Hint Resolve nu_mkdir : raises.

Lemma nu_makedirs_f (fuel : nat) (p : string) : raises_only not_unsupported (makedirs_f fuel p).
Proof.
  revert p; induction fuel as [|f IH]; intros p; simpl; [apply ro_raise; nu|].
  unfold path_exists. ro_walk nu.
Qed.
#[export] Hint Resolve nu_makedirs_f : raises.

Lemma nu_extract_with (w : world) (fmt : archive_format) (filename output_dir : string) :
  raises_only not_unsupported (extract_with w fmt filename output_dir).
Proof.
  unfold extract_with, open_archive, isdir, makedirs, extractall, extract_member, path_exists,
    put_entry, set_fs.
  ro_walk nu.
Qed.

(** ** C3
    [extract_package] raises the unsupported-format error exactly when the
    filename matches neither [(\.tar(\..+)?|tgz)$] nor ends in [.zip];
    a name matching the tar pattern is read with the tar reader, any other
    name ending in [.zip] with the zip reader.  The usual names [.tar],
    [.tar.gz], [.tgz], [.tar.xz] match the tar pattern. *)
Theorem extract_format_selection (w : world) (filename output_dir : string) :
  (forall s, fst (extract_package w filename output_dir s) = Exc UnsupportedFormat <->
             is_tar_name filename = false /\ endswith filename ".zip" = false)
  /\ (is_tar_name filename = true -> forall s,
        extract_package w filename output_dir s
        = (emit (Extracting filename) ;;; extract_with w TarFormat filename output_dir) s)
  /\ (is_tar_name filename = false -> endswith filename ".zip" = true -> forall s,
        extract_package w filename output_dir s
        = (emit (Extracting filename) ;;; extract_with w ZipFormat filename output_dir) s)
  /\ is_tar_name "a.tar" = true /\ is_tar_name "a.tar.gz" = true
  /\ is_tar_name "a.tgz" = true /\ is_tar_name "a.tar.xz" = true.
Proof.
  split; [|split; [|split]]; [| | |repeat split; reflexivity].
  - intros s. unfold extract_package, detect_format, emit, modify, bind.
    destruct (is_tar_name filename) eqn:Ht.
    + split; [|intros [H _]; discriminate].
      intros H. pose proof (nu_extract_with w TarFormat filename output_dir
                              (mkState (st_fs s) (st_cwd s) (st_out s ++ [Extracting filename])%list)) as Hn.
      simpl in H. rewrite H in Hn. exact (False_ind _ (Hn eq_refl)).
    + destruct (endswith filename ".zip") eqn:Hz.
      * split; [|intros [_ H]; discriminate].
        intros H. pose proof (nu_extract_with w ZipFormat filename output_dir
                                (mkState (st_fs s) (st_cwd s) (st_out s ++ [Extracting filename])%list)) as Hn.
        simpl in H. rewrite H in Hn. exact (False_ind _ (Hn eq_refl)).
      * simpl. split; [intros _; split; reflexivity|reflexivity].
  - intros Ht s. unfold extract_package, detect_format. rewrite Ht. reflexivity.
  - intros Ht Hz s. unfold extract_package, detect_format. rewrite Ht, Hz. reflexivity.
Qed.


Lemma nu_write_file (p : string) (v : kind) : raises_only not_unsupported (write_file p v).
Proof. unfold write_file, put_entry, set_fs. ro_walk nu. Qed.
#[export] Hint Resolve nu_write_file : raises.

Lemma glob_state (pathname : string) (s : state) : glob pathname s = (fst (glob pathname s), s).
Proof. unfold glob. destruct (path_split pathname). reflexivity. Qed.

(** ** C6
    In the package stage, when the glob [oidn-*] in the build directory
    finds nothing, the stage raises [IndexError] and leaves the state as it
    was (no extraction); when it finds something, the first match is the
    package that is extracted and processed. *)
Theorem package_glob_first (w : world) (OS : os_kind) (build_dir : string) (s : state) :
  (fst (glob (join build_dir "oidn-*") s) = Ok [] ->
   package_from_glob w OS build_dir s = (Exc IndexError, s))
  /\ (forall f rest, fst (glob (join build_dir "oidn-*") s) = Ok (f :: rest) ->
       package_from_glob w OS build_dir s
       = (extract_package w f build_dir ;;; package_after_extract w OS f) s).
Proof.
  split.
  - intros H. unfold package_from_glob, bind. rewrite glob_state, H. reflexivity.
  - intros f rest H. unfold package_from_glob. unfold bind at 1.
    rewrite glob_state, H. reflexivity.
Qed.

Lemma fs_find_del_tree (t : fs) (key k : string) :
  k <> "/" -> (k = key \/ String.prefix (key ++ "/") k = true) ->
  fs_find (fs_del_tree t key) k = None.
Proof.
  intros Hroot Hk. unfold fs_del_tree.
  induction t as [|[k' v] t IH]; simpl.
  - apply String.eqb_neq in Hroot. rewrite Hroot. reflexivity.
  - destruct (String.eqb_spec k' key) as [->|Hne]; simpl.
    + exact IH.
    + destruct (String.prefix (key ++ "/") k') eqn:Hp; simpl; [exact IH|].
      apply String.eqb_neq in Hroot as Hr. rewrite Hr.
      destruct (String.eqb_spec k' k) as [->|Hne']; [|exact IH].
      destruct Hk as [->|Hk]; [congruence|congruence].
Qed.

Lemma rmtree_ok (p : string) (s s' : state) :
  rmtree p s = (Ok tt, s') ->
  exists key, resolve (st_cwd s) p = Some key /\ st_cwd s' = st_cwd s
              /\ st_fs s' = fs_del_tree (st_fs s) key.
Proof.
  unfold rmtree, gets, bind, set_fs, modify, raise.
  destruct (resolve (st_cwd s) p) as [key|] eqn:Hr; [|discriminate].
  destruct (fs_find (st_fs s) key) as [[]|]; try discriminate.
  intros H; inversion H; subst. exists key; auto.
Qed.

(** ** C2 (as amended)
    Deleting the extracted package directory is the last step of the
    package stage and runs only when finding, checking and signing the
    binaries and repacking all succeeded, with or without a signing tool:
    when the stage completes, the directory and everything below it are
    gone; when one of those steps raises, the stage ends with that
    exception in the state it left, before the deletion. *)
Theorem package_dir_removed_on_success (w : world) (OS : os_kind) (package_filename : string)
    (s : state) :
  let package_dir := strip_pkg_suffix package_filename in
  (forall s', package_after_extract w OS package_filename s = (Ok tt, s') ->
     exists key, resolve (st_cwd s') package_dir = Some key /\
       forall k, k <> "/" -> (k = key \/ String.prefix (key ++ "/") k = true) ->
         fs_find (st_fs s') k = None)
  /\ (forall e s1, inspect_and_sign w OS package_filename package_dir s = (Exc e, s1) ->
        package_after_extract w OS package_filename s = (Exc e, s1)).
Proof.
  intros package_dir. split.
  - intros s' H. unfold package_after_extract, bind in H. fold package_dir in H.
    destruct (inspect_and_sign w OS package_filename package_dir s) as [[u|e] s1];
      [|discriminate].
    destruct (rmtree_ok package_dir s1 s' H) as (key & Hr & Hc & Hf).
    exists key. rewrite Hc. split; [exact Hr|].
    intros k Hk Hin. rewrite Hf. apply fs_find_del_tree; assumption.
  - intros e s1 H. unfold package_after_extract, bind. fold package_dir. rewrite H.
    reflexivity.
Qed.

Lemma fnmatch_star (p s : list ascii) :
  fnmatch_l ("*"%char :: p) s = true <-> exists s1 s2, s = (s1 ++ s2)%list /\ fnmatch_l p s2 = true.
Proof.
  simpl. induction s as [|c s IH].
  - rewrite orb_false_r. split.
    + intros H; exists [], []; auto.
    + intros (s1 & s2 & Hs & H). destruct s1, s2; try discriminate. exact H.
  - rewrite orb_true_iff, IH. split.
    + intros [H|(s1 & s2 & -> & H)].
      * exists [], (c :: s). auto.
      * exists (c :: s1), s2; auto.
    + intros (s1 & s2 & Hs & H). destruct s1 as [|c' s1].
      * left. simpl in Hs. subst s2. exact H.
      * right. inversion Hs; subst. exists s1, s2; auto.
Qed.

Lemma fnmatch_lit (c : ascii) (p s : list ascii) :
  Ascii.eqb c "*"%char = false ->
  fnmatch_l (c :: p) s = true <-> exists s', s = c :: s' /\ fnmatch_l p s' = true.
Proof.
  intros Hc. simpl. rewrite Hc. destruct s as [|c' s].
  - split; [discriminate|intros (s' & H & _); discriminate].
  - rewrite andb_true_iff. split.
    + intros [Heq H]. apply Ascii.eqb_eq in Heq. subst. exists s; auto.
    + intros (s' & Heq & H). inversion Heq; subst. rewrite Ascii.eqb_refl. auto.
Qed.

Lemma fnmatch_any (s : list ascii) : fnmatch_l ["*"%char] s = true.
Proof. apply fnmatch_star. exists s, []. rewrite app_nil_r. auto. Qed.

Lemma fnmatch_end (s : list ascii) : fnmatch_l [] s = true <-> s = [].
Proof. destruct s; simpl; split; congruence. Qed.

Lemma filterM_pure {A} (f : A -> M bool) (pf : A -> bool) (l : list A) (s : state) :
  (forall a, f a s = (Ok (pf a), s)) -> filterM f l s = (Ok (filter pf l), s).
Proof.
  intros Hf; induction l as [|a l IH]; simpl; [reflexivity|].
  unfold bind. rewrite Hf, IH. destruct (pf a); reflexivity.
Qed.

Lemma glob_eq (pathname : string) (s : state) : glob pathname s = (Ok (glob_of s pathname), s).
Proof. unfold glob_of, glob. destruct (path_split pathname). reflexivity. Qed.

Lemma find_binaries_eq (OS : os_kind) (package_dir : string) (s : state) :
  find_binaries OS package_dir s =
  (Ok (filter (fun f => is_regular (lookup s f))
         (glob_of s (join3 package_dir "bin" "*") ++
          match OS with
          | Linux => glob_of s (join3 package_dir "lib" "*.so*")
          | MacOS => glob_of s (join3 package_dir "lib" "*.dylib")
          | Windows => []
          end)%list), s).
Proof.
  unfold find_binaries, bind at 1. rewrite glob_eq.
  destruct OS; unfold bind at 1; try rewrite glob_eq; unfold ret at 1;
  apply filterM_pure; intros a; unfold isfile, islink, gets, bind, ret;
  destruct (lookup s a) as [[]|]; reflexivity.
Qed.

Lemma check_symbols_linux_state (w : world) (f : string) (s : state) :
  snd (check_symbols_linux w f s) = mkState (st_fs s) (st_cwd s) (st_out s ++ [CheckingSymbols f])%list.
Proof.
  unfold check_symbols_linux, emit, modify, bind.
  rewrite check_symbols_eq. destruct (check_lines _ _ _); [|reflexivity].
  rewrite check_symbols_eq. destruct (check_lines _ _ _); [|reflexivity].
  rewrite check_symbols_eq. reflexivity.
Qed.

Lemma check_symbols_linux_indep (w : world) (f : string) (s1 s2 : state) :
  st_fs s1 = st_fs s2 -> st_cwd s1 = st_cwd s2 ->
  fst (check_symbols_linux w f s1) = fst (check_symbols_linux w f s2).
Proof.
  intros Hf Hc. rewrite !check_symbols_linux_eq. unfold lookup. rewrite Hf, Hc. reflexivity.
Qed.

Lemma iter_check_symbols_linux (w : world) (bins : list string) (s : state) :
  exists k, (k <= length bins)%nat
    /\ snd (iter (check_symbols_linux w) bins s)
       = mkState (st_fs s) (st_cwd s) (st_out s ++ map CheckingSymbols (firstn k bins))%list
    /\ ((fst (iter (check_symbols_linux w) bins s) = Ok tt /\ k = length bins)
        \/ (0 < k)%nat /\ fst (iter (check_symbols_linux w) bins s)
                          = fst (check_symbols_linux w (nth (k - 1) bins "") s)
            /\ fst (iter (check_symbols_linux w) bins s) <> Ok tt).
Proof.
  revert s; induction bins as [|b bins IH]; intros s.
  - exists O. simpl. rewrite app_nil_r. destruct s; simpl. split; [lia|auto].
  - simpl. unfold bind.
    pose proof (check_symbols_linux_state w b s) as Hs.
    destruct (check_symbols_linux w b s) as [[u|e] s1] eqn:Hc; simpl in Hs; subst s1.
    + destruct u. destruct (IH (mkState (st_fs s) (st_cwd s) (st_out s ++ [CheckingSymbols b])%list))
        as (k & Hk & Hst & Hr).
      exists (S k). split; [lia|]. split.
      * rewrite Hst. simpl. rewrite <- app_assoc. reflexivity.
      * destruct Hr as [[Hr ->]|(Hk0 & Hr & Hne)]; [left; split; [exact Hr|reflexivity]|right].
        split; [lia|]. split; [|exact Hne]. rewrite Hr.
        replace (S k - 1)%nat with (S (k - 1)) by lia. simpl.
        apply check_symbols_linux_indep; reflexivity.
    + exists 1%nat. simpl. split; [lia|]. split; [reflexivity|].
      right. split; [lia|]. rewrite Hc. split; [reflexivity|discriminate].
Qed.

Lemma fnmatch_so (name : string) :
  fnmatch name "*.so*" = true <->
  exists a b, list_ascii_of_string name = (a ++ list_ascii_of_string ".so" ++ b)%list.
Proof.
  unfold fnmatch. cbn [list_ascii_of_string]. rewrite fnmatch_star.
  split.
  - intros (s1 & s2 & Hs & H).
    apply fnmatch_lit in H; [|reflexivity]. destruct H as (s3 & -> & H).
    apply fnmatch_lit in H; [|reflexivity]. destruct H as (s4 & -> & H).
    apply fnmatch_lit in H; [|reflexivity]. destruct H as (s5 & -> & H).
    exists s1, s5. exact Hs.
  - intros (a & b & Hs). exists a, ("."%char :: "s"%char :: "o"%char :: b). split; [exact Hs|].
    apply fnmatch_lit; [reflexivity|]. eexists; split; [reflexivity|].
    apply fnmatch_lit; [reflexivity|]. eexists; split; [reflexivity|].
    apply fnmatch_lit; [reflexivity|]. eexists; split; [reflexivity|].
    apply fnmatch_any.
Qed.

Lemma fnmatch_dylib (name : string) :
  fnmatch name "*.dylib" = true <->
  exists a, list_ascii_of_string name = (a ++ list_ascii_of_string ".dylib")%list.
Proof.
  unfold fnmatch. cbn [list_ascii_of_string]. rewrite fnmatch_star.
  split.
  - intros (s1 & s2 & Hs & H).
    repeat (apply fnmatch_lit in H; [|reflexivity]; destruct H as (? & -> & H)).
    apply fnmatch_end in H. subst. exists s1. exact Hs.
  - intros (a & Hs). eexists a, _. split; [exact Hs|].
    repeat (apply fnmatch_lit; [reflexivity|]; eexists; split; [reflexivity|]).
    reflexivity.
Qed.

Lemma fnmatch_all (name : string) : fnmatch name "*" = true.
Proof. apply fnmatch_any. Qed.

(** ** C8
    The binaries of the package are the entries of [bin/*], plus those of
    [lib/*.so*] (names containing [.so]) on Linux and of [lib/*.dylib]
    (names ending in [.dylib]) on macOS, kept when they are regular files
    and not symbolic links.  On Linux [check_symbols_linux] runs on them in
    order: on all of them when no check raises, otherwise up to the first
    one whose check raises; on the other platforms no check runs. *)
Theorem binary_discovery_and_checks (w : world) (OS : os_kind) (package_dir : string)
    (s : state) :
  let bins :=
    filter (fun f => is_regular (lookup s f))
      (glob_of s (join3 package_dir "bin" "*") ++
       match OS with
       | Linux => glob_of s (join3 package_dir "lib" "*.so*")
       | MacOS => glob_of s (join3 package_dir "lib" "*.dylib")
       | Windows => []
       end)%list in
  find_binaries OS package_dir s = (Ok bins, s)
  /\ (forall f, is_regular (lookup s f) = isfile_k (lookup s f) && negb (islink_k (lookup s f)))
  /\ (forall name, fnmatch name "*" = true)
  /\ (forall name, fnmatch name "*.so*" = true <->
        exists a b, list_ascii_of_string name = (a ++ list_ascii_of_string ".so" ++ b)%list)
  /\ (forall name, fnmatch name "*.dylib" = true <->
        exists a, list_ascii_of_string name = (a ++ list_ascii_of_string ".dylib")%list)
  /\ (OS = Linux ->
      exists k, (k <= length bins)%nat
        /\ snd (check_binaries w OS bins s)
           = mkState (st_fs s) (st_cwd s) (st_out s ++ map CheckingSymbols (firstn k bins))%list
        /\ (fst (check_binaries w OS bins s) = Ok tt -> k = length bins)
        /\ (k < length bins -> (0 < k)%nat /\
              fst (check_symbols_linux w (nth (k - 1) bins "") s) <> Ok tt))
  /\ (OS <> Linux -> check_binaries w OS bins s = (Ok tt, s)).
Proof.
  intros bins.
  split; [apply find_binaries_eq|].
  split; [intros f; destruct (lookup s f) as [[]|]; reflexivity|].
  split; [exact fnmatch_all|].
  split; [exact fnmatch_so|].
  split; [exact fnmatch_dylib|].
  split.
  - intros ->. unfold check_binaries; simpl.
    destruct (iter_check_symbols_linux w bins s) as (k & Hk & Hs & Hr).
    exists k. split; [exact Hk|]. split; [exact Hs|].
    destruct Hr as [[Hr Hl]|(Hk0 & Hr & Hne)].
    + split; [intros _; exact Hl|intros Hlt; lia].
    + split; [intros H; congruence|]. intros _. split; [exact Hk0|]. rewrite <- Hr. exact Hne.
  - intros Hne. unfold check_binaries. destruct OS; [reflexivity|congruence|reflexivity].
Qed.

(** ** What a computation adds to the observable output *)

Section OutGrows.
Variable P : event -> Prop.

Lemma og_ret {A} (a : A) : out_grows P (ret a).
Proof. intros s; exists []; rewrite app_nil_r; auto. Qed.

Lemma og_raise {A} (e : exn) : out_grows P (@raise A e).
Proof. intros s; exists []; rewrite app_nil_r; auto. Qed.

Lemma og_gets {A} (f : state -> A) : out_grows P (gets f).
Proof. intros s; exists []; rewrite app_nil_r; auto. Qed.

Lemma og_set_fs (t : fs) : out_grows P (set_fs t).
Proof. intros s; exists []; rewrite app_nil_r; auto. Qed.

Lemma og_emit (e : event) : P e -> out_grows P (emit e).
Proof. intros He s; exists [e]; auto. Qed.

Lemma og_bind {A B} (m : M A) (k : A -> M B) :
  out_grows P m -> (forall a, out_grows P (k a)) -> out_grows P (bind m k).
Proof.
  intros Hm Hk s. unfold bind. destruct (Hm s) as (l1 & H1 & F1).
  destruct (m s) as [[a|e] s1]; simpl in H1.
  - destruct (Hk a s1) as (l2 & H2 & F2). exists (l1 ++ l2)%list.
    rewrite H2, H1, app_assoc. split; [reflexivity|apply Forall_app; auto].
  - exists l1; auto.
Qed.

Lemma og_iter {A} (f : A -> M unit) (l : list A) :
  (forall a, out_grows P (f a)) -> out_grows P (iter f l).
Proof.
  intros Hf; induction l as [|a l IH]; simpl; [apply og_ret|].
  apply og_bind; [apply Hf|intros _; exact IH].
Qed.

End OutGrows.

Ltac og_walk :=
  repeat match goal with
  | |- out_grows _ (bind _ _) => apply og_bind; [|intro]
  | |- out_grows _ (raise _) => apply og_raise
  | |- out_grows _ (ret _) => apply og_ret
  | |- out_grows _ (gets _) => apply og_gets
  | |- out_grows _ (set_fs _) => apply og_set_fs
  | |- out_grows _ (emit _) => apply og_emit; simpl; exact I
  | |- out_grows _ (match ?x with _ => _ end) => destruct x
  | |- out_grows _ (iter _ _) => apply og_iter; intro
  end.

Lemma og_chdir (p : string) : out_grows is_system (chdir p).
Proof.
  unfold chdir, modify. og_walk.
  intros s'; exists []; rewrite app_nil_r; auto.
Qed.

Lemma og_run (w : world) (c : string) : out_grows is_system (run w c).
Proof.
  unfold run. og_walk.
Qed.

Lemma og_windows_toolset (comps : list string) (m : option string) (tc : string) :
  out_grows is_system (windows_toolset comps m tc).
Proof.
  revert m tc; induction comps as [|c comps IH]; intros m tc; simpl; og_walk; apply IH.
Qed.

Lemma og_build_with (w : world) (OS : os_kind) (cfg : config)
    (build_dir ispc_executable tbb_root : string) :
  out_grows is_system (build_with w OS cfg build_dir ispc_executable tbb_root).
Proof.
  unfold build_with, isdir, rmtree, mkdir, put_entry, cxx_of.
  og_walk; try apply og_run; try apply og_chdir; try apply og_windows_toolset.
Qed.

(** ** C5
    A dependency whose directory under [deps] already exists is not fetched
    again: its set-up leaves the state as it is (no download, no
    extraction, nothing printed) and returns its root path, the same path
    as a set-up that downloads it; when both directories exist, the whole
    build stage adds only shell commands to the output, no download and no
    extraction. *)
Theorem deps_provisioning_idempotent (w : world) (OS : os_kind) (cfg : config)
    (deps_dir build_dir : string) (s : state) :
  let ispc_dir := join deps_dir ("ispc-v" ++ ISPC_VERSION ++ "-" ++
                    match OS with Windows => "windows" | Linux => "linux" | MacOS => "macOS" end) in
  let tbb_dir := join deps_dir ("tbb-" ++ TBB_VERSION ++ "-" ++
                    match OS with Windows => "win" | Linux => "lin" | MacOS => "mac" end) in
  (isdir_k (lookup s ispc_dir) = true ->
     setup_ispc w OS deps_dir s = (Ok (join3 ispc_dir "bin" "ispc"), s))
  /\ (forall p s', setup_ispc w OS deps_dir s = (Ok p, s') -> p = join3 ispc_dir "bin" "ispc")
  /\ (isdir_k (lookup s tbb_dir) = true ->
     setup_tbb w OS deps_dir s = (Ok (join tbb_dir "tbb"), s))
  /\ (forall p s', setup_tbb w OS deps_dir s = (Ok p, s') -> p = join tbb_dir "tbb")
  /\ (isdir_k (lookup s ispc_dir) = true -> isdir_k (lookup s tbb_dir) = true ->
      build_stage w OS cfg deps_dir build_dir s
      = build_with w OS cfg build_dir (join3 ispc_dir "bin" "ispc") (join tbb_dir "tbb") s
      /\ exists l, st_out (snd (build_stage w OS cfg deps_dir build_dir s)) = (st_out s ++ l)%list
                   /\ Forall is_system l).
Proof.
  intros ispc_dir tbb_dir.
  assert (Hi : isdir_k (lookup s ispc_dir) = true ->
               setup_ispc w OS deps_dir s = (Ok (join3 ispc_dir "bin" "ispc"), s)).
  { intros H. unfold setup_ispc, isdir, gets, bind. fold ispc_dir. rewrite H. reflexivity. }
  assert (Ht : isdir_k (lookup s tbb_dir) = true ->
               setup_tbb w OS deps_dir s = (Ok (join tbb_dir "tbb"), s)).
  { intros H. unfold setup_tbb, isdir, gets, bind. fold tbb_dir. rewrite H. reflexivity. }
  split; [exact Hi|]. split.
  { intros p s' H. unfold setup_ispc, isdir, gets, bind in H. fold ispc_dir in H.
    match type of H with
    | match ?x with _ => _ end = _ => destruct x as [[]] end; inversion H; reflexivity. }
  split; [exact Ht|]. split.
  { intros p s' H. unfold setup_tbb, isdir, gets, bind in H. fold tbb_dir in H.
    match type of H with
    | match ?x with _ => _ end = _ => destruct x as [[]] end; inversion H; reflexivity. }
  intros H1 H2.
  assert (Hb : build_stage w OS cfg deps_dir build_dir s
               = build_with w OS cfg build_dir (join3 ispc_dir "bin" "ispc") (join tbb_dir "tbb") s).
  { unfold build_stage, bind at 1. rewrite (Hi H1). unfold bind. rewrite (Ht H2). reflexivity. }
  split; [exact Hb|]. rewrite Hb. apply og_build_with.
Qed.

(** ** The directories [os.makedirs] creates *)

Lemma leading_l_refl (p : list ascii) : leading_l p p.
Proof. exists []. rewrite app_nil_r. auto. Qed.

Lemma leading_l_trans (u q p : list ascii) :
  leading_l u q -> leading_l q p -> leading_l u p.
Proof.
  intros (r' & -> & H1) (r & -> & H2). exists (r' ++ r)%list.
  rewrite app_assoc. split; [reflexivity|].
  destruct H1 as [->|[[r'' ->]|H1]].
  - rewrite app_nil_r in H2. rewrite app_nil_l. exact H2.
  - right; left. exists (r'' ++ r)%list. reflexivity.
  - right; right. exact H1.
Qed.

Lemma take_drop_while (f : ascii -> bool) (l : list ascii) :
  (take_while f l ++ drop_while f l)%list = l.
Proof. induction l as [|c l IH]; simpl; [reflexivity|]. destruct (f c); simpl; congruence. Qed.

Lemma take_while_all (f : ascii -> bool) (l : list ascii) :
  forall x, In x (take_while f l) -> f x = true.
Proof.
  induction l as [|c l IH]; simpl; [tauto|].
  destruct (f c) eqn:Hc; simpl; [|tauto]. intros x [<-|Hx]; auto.
Qed.

Lemma drop_while_head (f : ascii -> bool) (l : list ascii) :
  drop_while f l = [] \/ exists c l', drop_while f l = c :: l' /\ f c = false.
Proof.
  induction l as [|c l IH]; simpl; [auto|].
  destruct (f c) eqn:Hc; [exact IH|]. right. exists c, l. auto.
Qed.

Lemma is_slash_eq (c : ascii) : is_slash c = true -> c = slash.
Proof. unfold is_slash. apply Ascii.eqb_eq. Qed.

Lemma split_l_head (p : list ascii) :
  fst (split_l p) = [] \/ leading_l (fst (split_l p)) p.
Proof.
  unfold split_l. simpl.
  set (f := fun c => negb (is_slash c)).
  pose proof (take_drop_while f (rev p)) as Hr.
  destruct (drop_while_head f (rev p)) as [HD|(c & D' & HD & Hc)];
    rewrite HD in *.
  - left. reflexivity.
  - right. unfold f in Hc. apply negb_false_iff, is_slash_eq in Hc. subst c.
    set (T := take_while f (rev p)) in *.
    assert (Hp : p = (rev D' ++ [slash] ++ rev T)%list).
    { rewrite <- (rev_involutive p), <- Hr. simpl.
      rewrite rev_app_distr. simpl. rewrite <- app_assoc. reflexivity. }
    simpl. rewrite rev_app_distr. simpl.
    destruct (forallb is_slash (rev D' ++ [slash])%list) eqn:Hall.
    + exists (rev T). split; [rewrite Hp, app_assoc; reflexivity|].
      right; right. eexists; reflexivity.
    + rewrite rev_involutive.
      pose proof (take_drop_while is_slash D') as Hs.
      set (S0 := take_while is_slash D') in *.
      set (E := drop_while is_slash D') in *.
      assert (HSall := take_while_all is_slash D'). fold S0 in HSall.
      exists (rev S0 ++ [slash] ++ rev T)%list. split.
      { rewrite Hp, <- Hs, rev_app_distr, <- !app_assoc. reflexivity. }
      right; left.
      destruct (rev S0) as [|x rS] eqn:HrS.
      * exists (rev T). reflexivity.
      * exists (rS ++ [slash] ++ rev T)%list. simpl. f_equal. apply is_slash_eq, HSall.
        apply in_rev. rewrite HrS. left. reflexivity.
Qed.

Lemma path_split_head (p : string) :
  fst (path_split p) = "" \/ leading_part (fst (path_split p)) p.
Proof.
  unfold path_split, leading_part.
  destruct (split_l (list_ascii_of_string p)) as [h t] eqn:Hs. simpl.
  destruct (split_l_head (list_ascii_of_string p)) as [H|H]; rewrite Hs in H; simpl in H.
  - left. subst h. reflexivity.
  - right. rewrite list_ascii_of_string_of_list_ascii. exact H.
Qed.

Lemma fs_find_set (t : fs) (key : string) (v : kind) (k : string) :
  fs_find (fs_set t key v) k =
  if String.eqb k "/" then Some KDir
  else if String.eqb key k then Some v else fs_find t k.
Proof.
  unfold fs_set. induction t as [|[k' v'] t IH]; simpl.
  - destruct (String.eqb k "/"); [reflexivity|].
    destruct (String.eqb key k); reflexivity.
  - destruct (String.eqb_spec k' key) as [->|Hne]; simpl.
    + rewrite IH. destruct (String.eqb k "/"); [reflexivity|].
      destruct (String.eqb key k); reflexivity.
    + destruct (String.eqb k "/") eqn:Hr; [reflexivity|].
      destruct (String.eqb_spec k' k) as [->|Hne'].
      * rewrite (proj2 (String.eqb_neq key k) (not_eq_sym Hne)). reflexivity.
      * exact IH.
Qed.

Lemma fs_grown_refl (name : string) (s : state) : fs_grown name s s.
Proof. split; [reflexivity|]. split; [reflexivity|]. intros k H. congruence. Qed.

Lemma fs_grown_trans (name : string) (s1 s2 s3 : state) :
  fs_grown name s1 s2 -> fs_grown name s2 s3 -> fs_grown name s1 s3.
Proof.
  intros (Hc1 & Ho1 & H1) (Hc2 & Ho2 & H2).
  split; [congruence|]. split; [congruence|].
  intros k Hk.
  destruct (option_eq_dec_kind (fs_find (st_fs s2) k) (fs_find (st_fs s1) k)) as [E|E].
  - rewrite <- E in *. destruct (H2 k Hk) as (Ha & Hb & q & Hq & Hr).
    rewrite Hc1 in Hr. eauto.
  - destruct (H1 k E) as (Ha & Hb & Hq).
    split; [exact Ha|]. split; [|exact Hq].
    destruct (option_eq_dec_kind (fs_find (st_fs s3) k) (fs_find (st_fs s2) k)) as [E'|E'].
    + congruence.
    + destruct (H2 k E') as (Ha' & _). congruence.
Qed.

Lemma leading_part_refl (p : string) : leading_part p p.
Proof. apply leading_l_refl. Qed.

Lemma fs_grown_weaken (q name : string) (s s' : state) :
  leading_part q name -> fs_grown q s s' -> fs_grown name s s'.
Proof.
  intros Hq (Hc & Ho & H). split; [exact Hc|]. split; [exact Ho|].
  intros k Hk. destruct (H k Hk) as (Ha & Hb & u & Hu & Hr).
  split; [exact Ha|]. split; [exact Hb|]. exists u. split; [|exact Hr].
  exact (leading_l_trans _ _ _ Hu Hq).
Qed.

Lemma fs_find_root (t : fs) : fs_find t "/" = Some KDir.
Proof. destruct t; reflexivity. Qed.

Lemma mkdir_grown (p : string) (s : state) : fs_grown p s (snd (mkdir p s)).
Proof.
  unfold mkdir, gets, bind, raise.
  destruct (resolve (st_cwd s) p) as [key|] eqn:Hr; [|apply fs_grown_refl].
  destruct (fs_find (st_fs s) key) as [v|] eqn:Hf; [apply fs_grown_refl|].
  destruct (fs_find (st_fs s) (dirname key)) as [[]|]; try apply fs_grown_refl.
  all: unfold put_entry, set_fs, modify, gets, bind; simpl.
  all: split; [reflexivity|]; split; [reflexivity|].
  all: intros k Hk; cbn [st_fs st_cwd st_out] in Hk |- *; rewrite fs_find_set in Hk |- *.
  all: destruct (String.eqb_spec k "/") as [Hk0|Hroot];
         [subst k; rewrite fs_find_root in Hk; congruence|].
  all: destruct (String.eqb_spec key k) as [Hk0|Hne]; [subst k|congruence].
  all: split; [exact Hf|]; split; [reflexivity|]; exists p; split;
         [apply leading_part_refl|exact Hr].
Qed.

Lemma mkdir_ok (p : string) (s s' : state) :
  mkdir p s = (Ok tt, s') -> lookup s' p = Some KDir.
Proof.
  unfold mkdir, gets, bind, raise.
  destruct (resolve (st_cwd s) p) as [key|] eqn:Hr; [|discriminate].
  destruct (fs_find (st_fs s) key) as [v|] eqn:Hf; [discriminate|].
  destruct (fs_find (st_fs s) (dirname key)) as [[]|]; try discriminate.
  all: unfold put_entry, set_fs, modify, gets, bind; simpl; intros H; inversion H; subst.
  all: unfold lookup; simpl; rewrite Hr, fs_find_set, String.eqb_refl.
  all: destruct (String.eqb key "/"); reflexivity.
Qed.

Lemma path_exists_state (p : string) (s : state) :
  path_exists p s = (Ok (exists_k (lookup s p)), s).
Proof. reflexivity. Qed.

Lemma try_pass_state (c : exn -> bool) (m : M unit) (s : state) :
  snd (try_pass c m s) = snd (m s).
Proof.
  unfold try_pass. destruct (m s) as [[u|e] s']; [reflexivity|].
  destruct (c e); reflexivity.
Qed.

Lemma makedirs_f_grown (fuel : nat) :
  forall name s, fs_grown name s (snd (makedirs_f fuel name s)).
Proof.
  induction fuel as [|f IH]; intros name s; [apply fs_grown_refl|].
  cbn [makedirs_f].
  assert (Hstep : forall head tail,
    head = "" \/ leading_part head name ->
    fs_grown name s
      (snd ((b <- path_exists head ;;
             if negb (String.eqb head "") && negb (String.eqb tail "") && negb b then
               try_pass is_file_exists (makedirs_f f head) ;;;
               (if String.eqb tail "." then ret tt else mkdir name)
             else mkdir name) s))).
  { intros head tail Hh. unfold bind at 1. rewrite path_exists_state.
    destruct (String.eqb_spec head "") as [->|Hne]; simpl; [apply mkdir_grown|].
    destruct Hh as [Hh|Hh]; [congruence|].
    destruct (negb (String.eqb tail "") && negb (exists_k (lookup s head))); simpl;
      [|apply mkdir_grown].
    unfold bind. pose proof (try_pass_state is_file_exists (makedirs_f f head) s) as Ht.
    destruct (try_pass is_file_exists (makedirs_f f head) s) as [[u|e] s1] eqn:E;
      simpl in Ht; subst s1.
    - apply fs_grown_trans with (s2 := snd (makedirs_f f head s)).
      + apply (fs_grown_weaken head); [exact Hh|apply IH].
      + destruct (String.eqb tail "."); [apply fs_grown_refl|apply mkdir_grown].
    - apply (fs_grown_weaken head); [exact Hh|apply IH]. }
  destruct (path_split name) as [h1 t1] eqn:E1.
  pose proof (path_split_head name) as H1. rewrite E1 in H1. simpl in H1.
  cbv beta iota. destruct (String.eqb t1 "").
  - destruct (path_split h1) as [h2 t2] eqn:E2. cbv beta iota. apply Hstep.
    pose proof (path_split_head h1) as H2. rewrite E2 in H2. simpl in H2.
    destruct H1 as [->|H1].
    + left. vm_compute in E2. congruence.
    + destruct H2 as [H2|H2]; [left; exact H2|].
      right. exact (leading_l_trans _ _ _ H2 H1).
  - cbv beta iota. apply Hstep. exact H1.
Qed.

Lemma makedirs_f_ok (f : nat) (name : string) (s s' : state) :
  snd (path_split name) <> "" -> snd (path_split name) <> "." ->
  makedirs_f (S f) name s = (Ok tt, s') -> lookup s' name = Some KDir.
Proof.
  cbn [makedirs_f].
  destruct (path_split name) as [h1 t1] eqn:E1. simpl. intros Ht Hd.
  apply String.eqb_neq in Ht. rewrite Ht. cbv beta iota.
  unfold bind at 1. rewrite path_exists_state.
  destruct (negb (String.eqb h1 "") && negb (String.eqb t1 "") && negb (exists_k (lookup s h1)));
    [|apply mkdir_ok].
  unfold bind. destruct (try_pass is_file_exists (makedirs_f f h1) s) as [[u|e] s1];
    [|discriminate].
  apply String.eqb_neq in Hd. rewrite Hd. apply mkdir_ok.
Qed.

Lemma list_ascii_of_string_app (a b : string) :
  list_ascii_of_string (a ++ b) = (list_ascii_of_string a ++ list_ascii_of_string b)%list.
Proof. induction a as [|c a IH]; simpl; congruence. Qed.

Lemma prefix_l_slash (l : list ascii) :
  prefix_l [slash] l = true -> exists l', l = slash :: l'.
Proof.
  destruct l as [|c l]; [discriminate|]. intros H.
  change (Ascii.eqb slash c && prefix_l [] l = true) in H.
  rewrite andb_true_r in H. apply Ascii.eqb_eq in H. subst c. eauto.
Qed.

Lemma join_deps_tail (root : string) : snd (path_split (join root "deps")) = "deps".
Proof.
  assert (Hl : exists l, list_ascii_of_string (join root "deps") = (l ++ ["d";"e";"p";"s"]%char)%list
                         /\ (l = [] \/ exists l', l = (l' ++ [slash])%list)).
  { unfold join. simpl.
    destruct (String.eqb root ""); [exists []; auto|].
    destruct (endswith root "/") eqn:He.
    - exists (list_ascii_of_string root). rewrite list_ascii_of_string_app. split; [reflexivity|].
      right. unfold endswith in He. simpl in He. apply prefix_l_slash in He as [l' Hl'].
      exists (rev l'). rewrite <- (rev_involutive (list_ascii_of_string root)), Hl'. reflexivity.
    - exists (list_ascii_of_string root ++ [slash])%list.
      rewrite !list_ascii_of_string_app, <- app_assoc. split; [reflexivity|]. eauto. }
  destruct Hl as (l & Hl & Hs).
  unfold path_split, split_l. rewrite Hl. rewrite rev_app_distr. simpl.
  destruct Hs as [->|[l' ->]]; [reflexivity|].
  rewrite rev_app_distr. reflexivity.
Qed.

Lemma detect_os_state (w : world) (s : state) : exists r, detect_os w s = (r, s).
Proof.
  unfold detect_os.
  destruct (String.eqb (platform_system w) "Windows"); [eexists; reflexivity|].
  destruct (String.eqb (platform_system w) "Linux"); [eexists; reflexivity|].
  destruct (String.eqb (platform_system w) "Darwin"); eexists; reflexivity.
Qed.

Lemma root_dir_of_eq (w : world) (s : state) :
  root_dir_of w s = (Ok match truthy (getenv w "OIDN_ROOT_DIR") with
                        | Some r => r | None => st_cwd s end, s).
Proof. unfold root_dir_of. destruct (truthy (getenv w "OIDN_ROOT_DIR")); reflexivity. Qed.

(** ** C10 (as amended)
    With no stage selected, [main] changes the file system only by creating
    directories that did not exist: [deps] under the root directory and the
    missing directories on the way to it ([os.makedirs] also creates the
    missing leading parts of the path, the root directory included); the
    working directory and the output are unchanged.  When [deps] already
    exists nothing changes, and when [main] completes [deps] is a
    directory. *)
Theorem main_no_stage_frame (w : world) (cfg : config) (s : state) :
  cfg_stage cfg = [] ->
  let root_dir := match truthy (getenv w "OIDN_ROOT_DIR") with
                  | Some r => r | None => st_cwd s end in
  let deps_dir := join root_dir "deps" in
  fs_grown deps_dir s (snd (main w cfg s))
  /\ (isdir_k (lookup s deps_dir) = true -> snd (main w cfg s) = s)
  /\ (fst (main w cfg s) = Ok tt -> isdir_k (lookup (snd (main w cfg s)) deps_dir) = true).
Proof.
  intros Hst root_dir deps_dir.
  assert (Hmain : main w cfg s =
    match detect_os w s with
    | (Ok _, s1) =>
        if isdir_k (lookup s deps_dir) then (Ok tt, s)
        else match makedirs deps_dir s with
             | (Ok _, s2) => (Ok tt, s2)
             | (Exc e, s2) => (Exc e, s2)
             end
    | (Exc e, s1) => (Exc e, s1)
    end).
  { destruct (detect_os_state w s) as [r Hr].
    unfold main, bind at 1. rewrite Hr. destruct r as [OS|e]; [|reflexivity].
    unfold bind at 1. rewrite root_dir_of_eq. fold root_dir. fold deps_dir.
    unfold bind at 1, isdir, gets. rewrite Hst. cbn [existsb].
    destruct (isdir_k (lookup s deps_dir)); [reflexivity|].
    unfold bind. destruct (makedirs deps_dir s) as [[u|e] s2]; reflexivity. }
  rewrite Hmain. destruct (detect_os_state w s) as [r Hr]. rewrite Hr.
  destruct r as [OS|e]; cbn [fst snd].
  2: { split; [apply fs_grown_refl|]. split; [reflexivity|discriminate]. }
  destruct (isdir_k (lookup s deps_dir)) eqn:Hd; cbn [fst snd].
  { split; [apply fs_grown_refl|]. split; [reflexivity|intros _; exact Hd]. }
  pose proof (makedirs_f_grown (S (String.length deps_dir)) deps_dir s) as Hg.
  pose proof (makedirs_f_ok (String.length deps_dir) deps_dir s) as Hok.
  assert (Htl : snd (path_split deps_dir) = "deps") by apply join_deps_tail.
  rewrite Htl in Hok. unfold makedirs.
  destruct (makedirs_f (S (String.length deps_dir)) deps_dir s) as [[u|e] s2];
    cbn [fst snd] in *.
  - split; [exact Hg|]. split; [discriminate|].
    intros _. destruct u. rewrite (Hok s2); [reflexivity|discriminate|discriminate|reflexivity].
  - split; [exact Hg|]. split; [discriminate|discriminate].
Qed.

(* ================================================================== *)
(** * Runs that settle the claims on concrete inputs *)

(** ** C10: a missing root directory is created as well
    With [OIDN_ROOT_DIR=/r] and no [/r], [main] with no stage creates [/r]
    besides [/r/deps]. *)
Lemma main_no_stage_creates_root :
  lookup state_empty "/r" = None
  /\ lookup state_empty "/r/deps" = None
  /\ fst (main world_root_r cfg_none state_empty) = Ok tt
  /\ lookup (snd (main world_root_r cfg_none state_empty)) "/r" = Some KDir
  /\ lookup (snd (main world_root_r cfg_none state_empty)) "/r/deps" = Some KDir.
Proof. vm_compute. repeat split. Qed.

(** ** C2: a failing signing command leaves the extracted package
    The package stage on Linux, with a signing tool whose command returns 1:
    [main] ends with the exception of [run] and the extracted directory is
    still there. *)
Lemma main_sign_failure_keeps_package_dir :
  lookup state_built pkg_dir = None
  /\ fst (main world_sign_fails cfg_package state_built) = Exc NonZeroReturn
  /\ lookup (snd (main world_sign_fails cfg_package state_built)) pkg_dir = Some KDir.
Proof. vm_compute. repeat split. Qed.

(** ** C4: an output directory without a parent component
    [extract_package("foo.tar", "foo")] in [/w], for an archive whose
    members are [foo] and [foo/a]: their common path is the basename
    [foo] of the output directory, whose [dirname] is the empty string;
    [os.path.isdir('')] is false and [os.makedirs('')] raises
    [FileNotFoundError], so nothing is extracted.  The same call with
    [./foo] extracts into [/w]. *)
Theorem extract_bare_output_dir_fails :
  commonpath ["foo"; "foo/a"] = Some (basename "foo")
  /\ dirname "foo" = ""
  /\ extract_package world_foo_tar "foo.tar" "foo" state_foo_tar
     = (Exc FileNotFoundError, mkState (st_fs state_foo_tar) "/w" [Extracting "foo.tar"])
  /\ extract_package world_foo_tar "foo.tar" "./foo" state_foo_tar
     = (Ok tt, mkState (st_fs state_foo_tar ++ [("/w/foo", KDir); ("/w/foo/a", KReg 2)])%list
                       "/w" [Extracting "foo.tar"]).
Proof. vm_compute. repeat split. Qed.

(* ------------------------------------------------------------------ *)
(** ** Instances of the theorems *)

(** C1 at a library with the GLIBC symbols 2.14, 2.18 and 2.17: all parse,
    and 2.18 is above (2,17,0). *)
Lemma check_symbols_linux_ceiling_witness :
  (forall label ceiling l, In (label, ceiling) ceilings ->
     In l (symbol_lines (nm_out world_nm 7) label) -> exists v, symbol_version (strip l) = Some v)
  /\ is_problematic (fst (check_symbols_linux world_nm "/lib.so" state_lib)) = true.
Proof.
  assert (Hp : forall label ceiling l, In (label, ceiling) ceilings ->
     In l (symbol_lines (nm_out world_nm 7) label) -> exists v, symbol_version (strip l) = Some v).
  { intros label ceiling l Hin Hl. simpl in Hin.
    destruct Hin as [H|[H|[H|[]]]]; injection H as <- <-; vm_compute in Hl;
      repeat (destruct Hl as [Hl|Hl]; [subst l; eexists; vm_compute; reflexivity|]);
      destruct Hl. }
  split; [exact Hp|].
  apply (proj2 (proj1 (check_symbols_linux_ceiling world_nm "/lib.so" state_lib Hp))).
  exists "GLIBC", glibc_max, "open@@GLIBC_2.18", [2; 18]%Z.
  split; [simpl; left; reflexivity|].
  split; [vm_compute; right; left; reflexivity|].
  split; [vm_compute; reflexivity|].
  left. exists [2%Z], 18%Z, 17%Z, [], [0%Z].
  split; [reflexivity|]. split; [reflexivity|lia].
Defined.

(** C9 at the symbol [f@@GLIBC_2.17] against (2,17,0). *)
Lemma prefix_version_passes_witness :
  (forall l, In l (symbol_lines (nm_out world_prefix 7) "GLIBC") ->
     exists v t, symbol_version (strip l) = Some v /\ glibc_max = (v ++ t)%list /\ t <> [])
  /\ fst (check_symbols world_prefix "/lib.so" "GLIBC" glibc_max state_lib) = Ok tt.
Proof.
  assert (Hp : forall l, In l (symbol_lines (nm_out world_prefix 7) "GLIBC") ->
     exists v t, symbol_version (strip l) = Some v /\ glibc_max = (v ++ t)%list /\ t <> []).
  { intros l Hl. vm_compute in Hl. destruct Hl as [<-|[]].
    exists [2; 17]%Z, [0]%Z. split; [vm_compute; reflexivity|]. split; [reflexivity|discriminate]. }
  split; [exact Hp|].
  exact (proj1 (prefix_version_passes world_prefix "/lib.so" "GLIBC" glibc_max state_lib Hp)).
Defined.

(** C3 at [foo.tar]: the tar reader is used. *)
Lemma extract_format_selection_witness :
  is_tar_name "foo.tar" = true
  /\ extract_package world_foo_tar "foo.tar" "foo" state_foo_tar
     = (emit (Extracting "foo.tar") ;;; extract_with world_foo_tar TarFormat "foo.tar" "foo")
         state_foo_tar.
Proof.
  split; [reflexivity|].
  exact (proj1 (proj2 (extract_format_selection world_foo_tar "foo.tar" "foo")) eq_refl
           state_foo_tar).
Defined.

(** C6 in the build directory of the sample package: the glob finds the
    package, which is then extracted. *)
Lemma package_glob_first_witness :
  fst (glob (join "/r/build_release" "oidn-*") state_built) = Ok [pkg_file]
  /\ package_from_glob world_no_sign Linux "/r/build_release" state_built
     = (extract_package world_no_sign pkg_file "/r/build_release" ;;;
        package_after_extract world_no_sign Linux pkg_file) state_built.
Proof.
  assert (Hg : fst (glob (join "/r/build_release" "oidn-*") state_built) = Ok [pkg_file])
    by (vm_compute; reflexivity).
  split; [exact Hg|].
  exact (proj2 (package_glob_first world_no_sign Linux "/r/build_release" state_built)
           pkg_file [] Hg).
Defined.

(** C2 (as amended) on the extracted sample package with no signing tool:
    the stage completes and the directory is gone. *)
Lemma package_dir_removed_on_success_witness :
  lookup state_extracted pkg_dir = Some KDir
  /\ fst (package_after_extract world_no_sign Linux pkg_file state_extracted) = Ok tt
  /\ lookup (snd (package_after_extract world_no_sign Linux pkg_file state_extracted)) pkg_dir
     = None.
Proof.
  assert (Hok : package_after_extract world_no_sign Linux pkg_file state_extracted
                = (Ok tt, snd (package_after_extract world_no_sign Linux pkg_file state_extracted)))
    by (vm_compute; reflexivity).
  split; [vm_compute; reflexivity|]. split; [rewrite Hok; reflexivity|].
  destruct (proj1 (package_dir_removed_on_success world_no_sign Linux pkg_file state_extracted)
              _ Hok) as (key & Hr & Hk).
  change (strip_pkg_suffix pkg_file) with pkg_dir in Hr.
  unfold lookup. rewrite Hr. apply Hk; [|left; reflexivity].
  revert Hr. vm_compute. intros Hr. injection Hr as <-. discriminate.
Defined.

(** C8 on the extracted sample package: its one binary is found. *)
Lemma binary_discovery_and_checks_witness :
  find_binaries Linux pkg_dir state_extracted
  = (Ok ["/r/build_release/oidn-1.2.0.x86_64.linux/bin/oidnDenoise"], state_extracted).
Proof.
  rewrite (proj1 (binary_discovery_and_checks world_no_sign Linux pkg_dir state_extracted)).
  vm_compute. reflexivity.
Defined.

(** C5 with both dependency directories present under [/r/deps]. *)
Lemma deps_provisioning_idempotent_witness :
  isdir_k (lookup state_deps "/r/deps/ispc-v1.13.0-linux") = true
  /\ setup_ispc world_no_sign Linux "/r/deps" state_deps
     = (Ok "/r/deps/ispc-v1.13.0-linux/bin/ispc", state_deps).
Proof.
  split; [vm_compute; reflexivity|].
  exact (proj1 (deps_provisioning_idempotent world_no_sign Linux cfg_none "/r/deps"
                  "/r/build_release" state_deps) eq_refl).
Defined.

(** C10 (as amended) with [OIDN_ROOT_DIR=/r]: [/r/deps] is a directory
    after the run. *)
Lemma main_no_stage_frame_witness :
  cfg_stage cfg_none = []
  /\ isdir_k (lookup (snd (main world_root_r cfg_none state_empty)) "/r/deps") = true.
Proof.
  split; [reflexivity|].
  destruct (main_no_stage_frame world_root_r cfg_none state_empty eq_refl) as (_ & _ & H).
  exact (H eq_refl).
Defined.

(* ================================================================== *)
(** * Further properties of the script *)


Section Preserves.
Variable R : state -> state -> Prop.
Hypothesis R_refl : forall s, R s s.
Hypothesis R_trans : forall s1 s2 s3, R s1 s2 -> R s2 s3 -> R s1 s3.

Lemma pr_ret {A} (a : A) : preserves R (ret a).
Proof. intros s; apply R_refl. Qed.

Lemma pr_raise {A} (e : exn) : preserves R (@raise A e).
Proof. intros s; apply R_refl. Qed.

Lemma pr_gets {A} (f : state -> A) : preserves R (gets f).
Proof. intros s; apply R_refl. Qed.

Lemma pr_bind {A B} (m : M A) (k : A -> M B) :
  preserves R m -> (forall a, preserves R (k a)) -> preserves R (bind m k).
Proof.
  intros Hm Hk s. unfold bind. pose proof (Hm s) as H1.
  destruct (m s) as [[a|e] s1]; simpl in *; [|exact H1].
  exact (R_trans _ _ _ H1 (Hk a s1)).
Qed.

Lemma pr_try_pass (c : exn -> bool) (m : M unit) :
  preserves R m -> preserves R (try_pass c m).
Proof.
  intros Hm s. unfold try_pass. pose proof (Hm s) as H.
  destruct (m s) as [[u|e] s1]; [exact H|]. destruct (c e); exact H.
Qed.

Lemma pr_iter {A} (f : A -> M unit) (l : list A) :
  (forall a, preserves R (f a)) -> preserves R (iter f l).
Proof.
  intros Hf; induction l as [|a l IH]; simpl; [apply pr_ret|].
  apply pr_bind; [apply Hf|intros _; exact IH].
Qed.
End Preserves.

Ltac pr_walk R_refl R_trans :=
  repeat match goal with
  | |- preserves _ (bind _ _) => apply (pr_bind _ R_trans); [|intro]
  | |- preserves _ (raise _) => apply (pr_raise _ R_refl)
  | |- preserves _ (ret _) => apply (pr_ret _ R_refl)
  | |- preserves _ (gets _) => apply (pr_gets _ R_refl)
  | |- preserves _ (try_pass _ _) => apply (pr_try_pass _)
  | |- preserves _ (iter _ _) => apply (pr_iter _ R_refl R_trans); intro
  | |- preserves _ (match ?x with _ => _ end) => destruct x
  | |- preserves _ (if ?x then _ else _) => destruct x
  end.

Lemma keeps_refl (s : state) : keeps_entries s s.
Proof. split; auto. Qed.

Lemma keeps_trans (s1 s2 s3 : state) :
  keeps_entries s1 s2 -> keeps_entries s2 s3 -> keeps_entries s1 s3.
Proof. intros [C1 H1] [C2 H2]. split; [congruence|auto]. Qed.

Lemma same_out_refl (s : state) : same_out s s.
Proof. reflexivity. Qed.

Lemma same_out_trans (s1 s2 s3 : state) :
  same_out s1 s2 -> same_out s2 s3 -> same_out s1 s3.
Proof. unfold same_out. congruence. Qed.

Ltac keeps_walk := pr_walk keeps_refl keeps_trans.
Ltac out_walk := pr_walk same_out_refl same_out_trans.

Lemma keeps_put_entry (key : string) (v : kind) : preserves keeps_entries (put_entry key v).
Proof.
  intros s. unfold put_entry, set_fs, modify, gets, bind, keeps_entries. cbn [snd st_fs st_cwd st_out].
  split; [reflexivity|]. intros k Hk. rewrite fs_find_set.
  destruct (String.eqb k "/"); [discriminate|].
  destruct (String.eqb key k); [discriminate|exact Hk].
Qed.

Lemma keeps_emit (e : event) : preserves keeps_entries (emit e).
Proof. intros s. split; auto. Qed.

Lemma keeps_mkdir (p : string) : preserves keeps_entries (mkdir p).
Proof. unfold mkdir. keeps_walk; apply keeps_put_entry. Qed.

Lemma keeps_makedirs_f (fuel : nat) (name : string) : preserves keeps_entries (makedirs_f fuel name).
Proof.
  revert name; induction fuel as [|f IH]; intros name; cbn [makedirs_f]; [apply pr_raise, keeps_refl|].
  destruct (path_split name) as [h t]. destruct (String.eqb t "");
    [destruct (path_split h) as [h' t']|]; cbv beta iota.
  all: unfold path_exists; keeps_walk; try apply IH; apply keeps_mkdir.
Qed.

Lemma keeps_extract_with (w : world) (fmt : archive_format) (filename output_dir : string) :
  preserves keeps_entries (extract_with w fmt filename output_dir).
Proof.
  unfold extract_with, open_archive, isdir, makedirs, extractall, extract_member, path_exists.
  keeps_walk; try apply keeps_makedirs_f; apply keeps_put_entry.
Qed.

(** ** X1: [extract_package] keeps the working directory and never deletes
    an entry: whatever existed before still exists afterwards, also when it
    fails *)
Theorem extract_package_keeps_entries (w : world) (filename output_dir : string) (s : state) :
  let s' := snd (extract_package w filename output_dir s) in
  st_cwd s' = st_cwd s /\
  forall p, exists_k (lookup s p) = true -> lookup s' p <> None.
Proof.
  assert (H : preserves keeps_entries (extract_package w filename output_dir)).
  { unfold extract_package, detect_format. keeps_walk; try apply keeps_emit;
    apply keeps_extract_with. }
  destruct (H s) as [Hc Hk]. split; [exact Hc|].
  intros p Hp. unfold lookup in *. rewrite Hc.
  destruct (resolve (st_cwd s) p); [|discriminate].
  apply Hk. destruct (fs_find (st_fs s) s0); discriminate.
Qed.

(** ** X2: on a platform other than Windows, Linux and Darwin, [main]
    raises [KeyError] at once and changes nothing *)
Theorem main_unsupported_platform (w : world) (cfg : config) (s : state) :
  platform_system w <> "Windows" -> platform_system w <> "Linux" ->
  platform_system w <> "Darwin" ->
  main w cfg s = (Exc KeyError, s).
Proof.
  intros H1 H2 H3. unfold main, bind at 1, detect_os.
  rewrite (proj2 (String.eqb_neq _ _) H1), (proj2 (String.eqb_neq _ _) H2),
    (proj2 (String.eqb_neq _ _) H3). reflexivity.
Qed.

(** ** X3: [main] depends on the stage list only through whether it
    contains "build" and whether it contains "package": order and repetition
    do not matter *)
Theorem main_stage_membership (w : world) (cfg1 cfg2 : config) :
  (In "build" (cfg_stage cfg1) <-> In "build" (cfg_stage cfg2)) ->
  (In "package" (cfg_stage cfg1) <-> In "package" (cfg_stage cfg2)) ->
  cfg_compiler cfg1 = cfg_compiler cfg2 -> cfg_config cfg1 = cfg_config cfg2 ->
  cfg_wrapper cfg1 = cfg_wrapper cfg2 -> cfg_cmake_vars cfg1 = cfg_cmake_vars cfg2 ->
  forall s, main w cfg1 s = main w cfg2 s.
Proof.
  intros Hb Hp Hc Hf Hw Hv s.
  assert (Hex : forall name, (In name (cfg_stage cfg1) <-> In name (cfg_stage cfg2)) ->
            existsb (String.eqb name) (cfg_stage cfg1) = existsb (String.eqb name) (cfg_stage cfg2)).
  { intros name Hn. apply Bool.eq_iff_eq_true. rewrite !existsb_exists.
    split; intros (x & Hx & E); apply String.eqb_eq in E; subst x; exists name;
      (split; [apply Hn; exact Hx|apply String.eqb_refl]). }
  pose proof (Hex "build" Hb) as Eb. pose proof (Hex "package" Hp) as Ep.
  destruct cfg1 as [st1 c1 f1 w1 v1], cfg2 as [st2 c2 f2 w2 v2];
    cbn [cfg_stage cfg_compiler cfg_config cfg_wrapper cfg_cmake_vars] in *; subst.
  unfold main, build_stage, build_with, package_stage.
  cbn [cfg_stage cfg_compiler cfg_config cfg_wrapper cfg_cmake_vars].
  rewrite Eb, Ep. reflexivity.
Qed.

Lemma out_set_fs (t : fs) : preserves same_out (set_fs t).
Proof. intros s. reflexivity. Qed.

Lemma out_put_entry (key : string) (v : kind) : preserves same_out (put_entry key v).
Proof. unfold put_entry. out_walk. apply out_set_fs. Qed.

Lemma out_mkdir (p : string) : preserves same_out (mkdir p).
Proof. unfold mkdir. out_walk; apply out_put_entry. Qed.

Lemma out_makedirs_f (fuel : nat) (name : string) : preserves same_out (makedirs_f fuel name).
Proof.
  revert name; induction fuel as [|f IH]; intros name; cbn [makedirs_f];
    [apply pr_raise, same_out_refl|].
  destruct (path_split name) as [h t]. destruct (String.eqb t "");
    [destruct (path_split h) as [h' t']|]; cbv beta iota.
  all: unfold path_exists; out_walk; try apply IH; apply out_mkdir.
Qed.

Lemma out_extract_with (w : world) (fmt : archive_format) (filename output_dir : string) :
  preserves same_out (extract_with w fmt filename output_dir).
Proof.
  unfold extract_with, open_archive, isdir, makedirs, extractall, extract_member, path_exists.
  out_walk; try apply out_makedirs_f; apply out_put_entry.
Qed.

Lemma out_write_file (p : string) (v : kind) : preserves same_out (write_file p v).
Proof. unfold write_file. out_walk; apply out_put_entry. Qed.

Lemma out_remove (p : string) : preserves same_out (remove p).
Proof. unfold remove. out_walk; apply out_set_fs. Qed.

Lemma out_rmtree (p : string) : preserves same_out (rmtree p).
Proof. unfold rmtree. out_walk; apply out_set_fs. Qed.

Lemma out_chdir (p : string) : preserves same_out (chdir p).
Proof. unfold chdir, modify. out_walk. intros ?. reflexivity. Qed.

Lemma fs_find_del (t : fs) (key : string) :
  key <> "/" -> fs_find (fs_del t key) key = None.
Proof.
  intros Hroot. apply String.eqb_neq in Hroot. unfold fs_del.
  induction t as [|[k v] t IH]; simpl; [rewrite Hroot; reflexivity|].
  destruct (String.eqb_spec k key) as [->|Hne]; simpl; [exact IH|].
  rewrite Hroot. apply String.eqb_neq in Hne. rewrite Hne. exact IH.
Qed.

Lemma remove_ok (p : string) (s s' : state) :
  remove p s = (Ok tt, s') -> lookup s' p = None.
Proof.
  unfold remove, gets, bind, raise, set_fs, modify.
  destruct (resolve (st_cwd s) p) as [key|] eqn:Hr; [|discriminate].
  destruct (fs_find (st_fs s) key) as [[]|] eqn:Hf; try discriminate.
  all: intros H; inversion H; subst; unfold lookup; cbn [st_cwd st_fs]; rewrite Hr.
  all: apply fs_find_del; intros ->; rewrite fs_find_root in Hf; discriminate.
Qed.

Lemma fetch_extract_remove (w : world) (url deps_dir dir : string) (s s' : state) :
  (filename <- download_file w url deps_dir ;;
   extract_package w filename dir ;;; remove filename) s = (Ok tt, s') ->
  st_out s' = (st_out s ++ [Downloading url; Extracting (join deps_dir (basename url))])%list
  /\ lookup s' (join deps_dir (basename url)) = None.
Proof.
  set (filename := join deps_dir (basename url)).
  unfold download_file. fold filename.
  unfold bind at 1. unfold bind at 1. unfold emit, modify.
  set (s1 := mkState (st_fs s) (st_cwd s) (st_out s ++ [Downloading url])%list).
  destruct (fetch w url) as [[c|c]|]; [| |discriminate].
  2: { unfold bind, raise. destruct (write_file filename (KReg c) s1) as [[[]|e] s2];
       discriminate. }
  unfold bind at 1. pose proof (out_write_file filename (KReg c) s1) as O1.
  destruct (write_file filename (KReg c) s1) as [[[]|e] s2]; [|discriminate].
  unfold ret. unfold bind at 1. unfold extract_package.
  unfold bind at 1. unfold emit, modify.
  set (s3 := mkState (st_fs s2) (st_cwd s2) (st_out s2 ++ [Extracting filename])%list).
  unfold bind at 1, detect_format.
  assert (Hx : forall fmt s4, extract_with w fmt filename dir s3 = (Ok tt, s4) ->
                 remove filename s4 = (Ok tt, s') ->
                 st_out s' = (st_out s ++ [Downloading url; Extracting filename])%list
                 /\ lookup s' filename = None).
  { intros fmt s4 E4 E5. split; [|exact (remove_ok _ _ _ E5)].
    pose proof (out_extract_with w fmt filename dir s3) as O4. rewrite E4 in O4.
    pose proof (out_remove filename s4) as O5. rewrite E5 in O5.
    unfold same_out in *. simpl in O1, O4, O5. rewrite O5, O4. simpl. rewrite O1. simpl.
    rewrite <- app_assoc. reflexivity. }
  destruct (is_tar_name filename); [|destruct (endswith filename ".zip"); [|discriminate]].
  1: set (fmt := TarFormat). 2: set (fmt := ZipFormat).
  all: unfold ret; cbv beta iota.
  all: destruct (extract_with w fmt filename dir s3) as [[[]|e] s4] eqn:E4; [|discriminate].
  all: exact (Hx fmt s4 E4).
Qed.

(** ** X4: when the ISPC (or TBB) directory is missing and its set-up
    succeeds, the output gains exactly the download and the extraction of the
    release URL, and the downloaded archive no longer exists *)
Theorem setup_download_removes_archive (w : world) (OS : os_kind) (deps_dir : string)
    (s s' : state) (p : string) :
  let ispc_release := "ispc-v" ++ ISPC_VERSION ++ "-" ++
    match OS with Windows => "windows" | Linux => "linux" | MacOS => "macOS" end in
  let ispc_url := "https://github.com/ispc/ispc/releases/download/v" ++ ISPC_VERSION
                  ++ "/" ++ ispc_release ++ (if os_eqb OS Windows then ".zip" else ".tar.gz") in
  let tbb_release := "tbb-" ++ TBB_VERSION ++ "-" ++
    match OS with Windows => "win" | Linux => "lin" | MacOS => "mac" end in
  let tbb_url := "https://github.com/oneapi-src/oneTBB/releases/download/v" ++ TBB_VERSION
                 ++ "/" ++ tbb_release ++ (if os_eqb OS Windows then ".zip" else ".tgz") in
  (isdir_k (lookup s (join deps_dir ispc_release)) = false ->
   setup_ispc w OS deps_dir s = (Ok p, s') ->
   st_out s' = (st_out s ++ [Downloading ispc_url;
                             Extracting (join deps_dir (basename ispc_url))])%list
   /\ lookup s' (join deps_dir (basename ispc_url)) = None)
  /\ (isdir_k (lookup s (join deps_dir tbb_release)) = false ->
   setup_tbb w OS deps_dir s = (Ok p, s') ->
   st_out s' = (st_out s ++ [Downloading tbb_url;
                             Extracting (join deps_dir (basename tbb_url))])%list
   /\ lookup s' (join deps_dir (basename tbb_url)) = None).
Proof.
  intros ispc_release ispc_url tbb_release tbb_url. split.
  - intros Hd H. unfold setup_ispc in H. fold ispc_release ispc_url in H.
    unfold bind at 1, isdir, gets in H. rewrite Hd in H. cbv beta iota in H.
    unfold bind at 1 in H. fold ispc_url in H.
    match type of H with
    | match ?m ?s0 with _ => _ end = _ =>
        destruct (m s0) as [[[]|e] s1] eqn:E; [|discriminate] end.
    unfold ret in H. inversion H; subst s1. exact (fetch_extract_remove _ _ _ _ _ _ E).
  - intros Hd H. unfold setup_tbb in H. fold tbb_release tbb_url in H.
    unfold bind at 1, isdir, gets in H. rewrite Hd in H. cbv beta iota in H.
    unfold bind at 1 in H.
    match type of H with
    | match ?m ?s0 with _ => _ end = _ =>
        destruct (m s0) as [[[]|e] s1] eqn:E; [|discriminate] end.
    unfold ret in H. inversion H; subst s1. exact (fetch_extract_remove _ _ _ _ _ _ E).
Qed.

Lemma bind_ok {A B} (m : M A) (k : A -> M B) (s : state) (b : B) (s' : state) :
  bind m k s = (Ok b, s') -> exists a s1, m s = (Ok a, s1) /\ k a s1 = (Ok b, s').
Proof. unfold bind. destruct (m s) as [[a|e] s1]; [eauto|discriminate]. Qed.

Lemma str_app_assoc_r (a b c : string) : ((a ++ b) ++ c)%string = (a ++ b ++ c)%string.
Proof. induction a as [|x a IH]; simpl; congruence. Qed.

Lemma frame_refl (s : state) : frame s s.
Proof. split; reflexivity. Qed.

Lemma frame_trans (s1 s2 s3 : state) : frame s1 s2 -> frame s2 s3 -> frame s1 s3.
Proof. intros [A1 B1] [A2 B2]; split; congruence. Qed.

Ltac frame_walk := pr_walk frame_refl frame_trans.

Lemma frame_set_fs (t : fs) : preserves frame (set_fs t).
Proof. intros s; split; reflexivity. Qed.

Lemma frame_rmtree (p : string) : preserves frame (rmtree p).
Proof. unfold rmtree. frame_walk; apply frame_set_fs. Qed.

Lemma frame_mkdir (p : string) : preserves frame (mkdir p).
Proof. unfold mkdir, put_entry. frame_walk; apply frame_set_fs. Qed.

Lemma run_eq (w : world) (c : string) (s : state) :
  st_out (snd (run w c s)) = (st_out s ++ [System c])%list /\
  st_cwd (snd (run w c s)) = st_cwd s.
Proof.
  unfold run, emit, modify, gets, bind, set_fs. cbn [st_fs st_cwd st_out].
  destruct (system w c (st_cwd s) _) as [st t].
  destruct (st =? 0)%Z; split; reflexivity.
Qed.

Lemma windows_toolset_state (comps : list string) (m : option string) (tc : string) (s : state) :
  snd (windows_toolset comps m tc s) = s.
Proof.
  revert m tc; induction comps as [|c comps IH]; intros m tc; simpl; [reflexivity|].
  destruct (startswith c "msvc"); [|destruct (startswith c "icc")]; try apply IH.
  destruct (String.eqb c "msvc15"); [apply IH|]. destruct (String.eqb c "msvc16"); [apply IH|].
  reflexivity.
Qed.

Lemma cxx_of_state (cc : string) (s : state) : snd (cxx_of cc s) = s.
Proof.
  unfold cxx_of. destruct (String.eqb cc "gcc"); [reflexivity|].
  destruct (String.eqb cc "clang"); [reflexivity|].
  destruct (String.eqb cc "icc"); reflexivity.
Qed.

Lemma chdir_ok (p : string) (s s' : state) :
  chdir p s = (Ok tt, s') -> resolve (st_cwd s) p = Some (st_cwd s') /\ st_out s' = st_out s.
Proof.
  unfold chdir, gets, bind, modify, raise.
  destruct (resolve (st_cwd s) p) as [key|]; [|discriminate].
  destruct (isdir_k (fs_find (st_fs s) key)).
  - intros H; inversion H; subst; split; reflexivity.
  - destruct (fs_find (st_fs s) key); discriminate.
Qed.

(** ** X5: a successful [build_with] ends in the build directory and prints
    exactly two commands: a configure command starting with [cmake -L] and
    ending with the TBB root, the user's CMake variables and [..], then the
    platform's build command, behind the wrapper when one is set *)
Theorem build_with_commands (w : world) (OS : os_kind) (cfg : config)
    (build_dir ispc_executable tbb_root : string) (s s' : state) :
  let cmake_vars :=
    "-D TBB_ROOT=" ++ dq ++ tbb_root ++ dq ++ " " ++
    match cfg_cmake_vars cfg with
    | Some vars => String.concat "" (map (fun var => "-D " ++ var ++ " ") vars)
    | None => ""
    end in
  let build_cmd :=
    if os_eqb OS Windows
    then "cmake --build . --config " ++ cfg_config cfg ++ " --target ALL_BUILD"
    else "cmake --build . --target preinstall -- -j VERBOSE=1" in
  build_with w OS cfg build_dir ispc_executable tbb_root s = (Ok tt, s') ->
  resolve (st_cwd s) build_dir = Some (st_cwd s') /\
  exists pre,
    st_out s' = (st_out s ++
                 [System ("cmake -L " ++ pre ++ cmake_vars ++ "..");
                  System (match truthy (cfg_wrapper cfg) with
                          | Some wrapper => wrapper ++ " " ++ build_cmd
                          | None => build_cmd
                          end)])%list.
Proof.
  intros cmake_vars build_cmd H. unfold build_with in H.
  apply bind_ok in H as (b & s1 & E1 & H). unfold isdir, gets in E1. inversion E1; subst s1.
  apply bind_ok in H as (u & s2 & E2 & H).
  assert (F2 : frame s s2).
  { assert (P : preserves frame (if b then rmtree build_dir else ret tt))
      by (destruct b; [apply frame_rmtree|apply (pr_ret _ frame_refl)]).
    specialize (P s). rewrite E2 in P. exact P. }
  apply bind_ok in H as (u3 & s3 & E3 & H).
  assert (F3 : frame s2 s3) by (pose proof (frame_mkdir build_dir s2) as P; rewrite E3 in P; exact P).
  apply bind_ok in H as (u4 & s4 & E4 & H). destruct u4.
  apply chdir_ok in E4 as [C4 O4].
  fold cmake_vars in H.
  apply bind_ok in H as (bc & s5 & E5 & H).
  assert (Hbc : exists pre, bc = build_cmd /\ st_cwd s5 = st_cwd s4 /\
            st_out s5 = (st_out s4 ++ [System ("cmake -L " ++ pre ++ cmake_vars ++ "..")])%list).
  { unfold build_cmd. destruct OS; cbn [os_eqb] in E5 |- *.
    1: { apply bind_ok in E5 as (tc & s6 & E6 & E5).
      pose proof (windows_toolset_state (py_split "-" (cfg_compiler cfg)) None "" s4) as S6.
      rewrite E6 in S6; cbn [snd] in S6; subst s6.
      destruct (fst tc) as [mv|]; [|discriminate].
      apply bind_ok in E5 as (u7 & s7 & E7 & E5). unfold ret in E5. inversion E5; subst.
      pose proof (run_eq w ("cmake -L " ++
                "-G " ++ dq ++ "Visual Studio " ++ mv ++ " Win64" ++ dq ++ " " ++
                "-T " ++ dq ++ snd tc ++ dq ++ " " ++
                "-D ISPC_EXECUTABLE=" ++ dq ++ ispc_executable ++ ".exe" ++ dq ++ " " ++
                cmake_vars ++ "..") s4) as [R R'].
      rewrite E7 in R, R'. cbn [snd] in R, R'.
      exists ("-G " ++ dq ++ "Visual Studio " ++ mv ++ " Win64" ++ dq ++ " " ++
              "-T " ++ dq ++ snd tc ++ dq ++ " " ++
              "-D ISPC_EXECUTABLE=" ++ dq ++ ispc_executable ++ ".exe" ++ dq ++ " ").
      split; [reflexivity|]. split; [exact R'|].
      rewrite R. repeat rewrite str_app_assoc_r. reflexivity. }
    all: apply bind_ok in E5 as (cxx0 & s6 & E6 & E5).
    all: pose proof (cxx_of_state (cfg_compiler cfg) s4) as S6.
    all: rewrite E6 in S6; cbn [snd] in S6; subst s6.
    all: match type of E5 with
         | match ?X with pair _ _ => _ end _ = _ => destruct X as [cc cxx]
         end.
    all: apply bind_ok in E5 as (u7 & s7 & E7 & E5); unfold ret in E5; inversion E5; subst.
    all: pose proof (run_eq w ("cmake -L " ++
            "-D CMAKE_C_COMPILER:FILEPATH=" ++ dq ++ cc ++ dq ++ " " ++
            "-D CMAKE_CXX_COMPILER:FILEPATH=" ++ dq ++ cxx ++ dq ++ " " ++
            "-D CMAKE_BUILD_TYPE=" ++ cfg_config cfg ++ " " ++
            "-D ISPC_EXECUTABLE=" ++ dq ++ ispc_executable ++ dq ++ " " ++
            cmake_vars ++ "..") s4) as [R R'].
    all: rewrite E7 in R, R'; cbn [snd] in R, R'.
    all: exists ("-D CMAKE_C_COMPILER:FILEPATH=" ++ dq ++ cc ++ dq ++ " " ++
            "-D CMAKE_CXX_COMPILER:FILEPATH=" ++ dq ++ cxx ++ dq ++ " " ++
            "-D CMAKE_BUILD_TYPE=" ++ cfg_config cfg ++ " " ++
            "-D ISPC_EXECUTABLE=" ++ dq ++ ispc_executable ++ dq ++ " ").
    all: split; [reflexivity|]; split; [exact R'|].
    all: rewrite R; repeat rewrite str_app_assoc_r; reflexivity. }
  destruct Hbc as (pre & -> & C5 & O5).
  pose proof (run_eq w (match truthy (cfg_wrapper cfg) with
                        | Some wrapper => wrapper ++ " " ++ build_cmd
                        | None => build_cmd
                        end) s5) as [R R'].
  rewrite H in R, R'. cbn [snd] in R, R'.
  destruct F2 as [O2 C2], F3 as [O3 C3].
  split.
  - rewrite R', C5, <- C4, C3, C2. reflexivity.
  - exists pre. rewrite R, O5, O4, O3, O2, <- app_assoc. reflexivity.
Qed.

Lemma chdir_fail (p : string) (s : state) :
  isdir_k (lookup s p) = false ->
  exists e, chdir p s = (Exc e, s) /\ (e = FileNotFoundError \/ e = NotADirectoryError).
Proof.
  unfold lookup, chdir, gets, bind, raise.
  destruct (resolve (st_cwd s) p) as [key|]; [|eauto].
  intros Hd. rewrite Hd. destruct (fs_find (st_fs s) key); eauto.
Qed.

(** ** X6: when the build directory is not a directory, the package stage
    raises [FileNotFoundError] or [NotADirectoryError] and changes nothing *)
Theorem package_stage_missing_build_dir (w : world) (OS : os_kind) (cfg : config)
    (build_dir : string) (s : state) :
  isdir_k (lookup s build_dir) = false ->
  exists e, package_stage w OS cfg build_dir s = (Exc e, s)
            /\ (e = FileNotFoundError \/ e = NotADirectoryError).
Proof.
  intros Hd. destruct (chdir_fail build_dir s Hd) as (e & E & He).
  exists e. split; [|exact He]. unfold package_stage, bind at 1. rewrite E. reflexivity.
Qed.

Lemma fq_raise {A} (P : exn -> Prop) (e : exn) : P e -> fails_quietly P (@raise A e).
Proof. intros He s; split; [reflexivity|exists e; auto]. Qed.

Lemma fq_bind {A B} (P : exn -> Prop) (m : M A) (k : A -> M B) :
  preserves same_out m -> raises_only P m -> (forall a, fails_quietly P (k a)) ->
  fails_quietly P (bind m k).
Proof.
  intros Hm Hr Hk s. unfold bind. specialize (Hm s). specialize (Hr s).
  destruct (m s) as [[a|e] s1]; cbn [fst snd] in *.
  - destruct (Hk a s1) as [O He]. split; [rewrite O; exact Hm|exact He].
  - split; [exact Hm|exists e; auto].
Qed.

Lemma fq_bind_l {A B} (P : exn -> Prop) (m : M A) (k : A -> M B) :
  fails_quietly P m -> fails_quietly P (bind m k).
Proof.
  intros Hm s. unfold bind. destruct (Hm s) as [O (e & He & HP)].
  destruct (m s) as [[a|e'] s1]; cbn [fst snd] in *; [discriminate|].
  inversion He; subst. split; [exact O|exists e; auto].
Qed.

Lemma windows_toolset_no_msvc (comps : list string) (tc : string) (s : state) :
  (forall c, In c comps -> startswith c "msvc" = true -> c <> "msvc15" /\ c <> "msvc16") ->
  windows_toolset comps None tc s = (Exc KeyError, s) \/
  exists tc', windows_toolset comps None tc s = (Ok (None, tc'), s).
Proof.
  revert tc; induction comps as [|c comps IH]; intros tc Hc; simpl.
  { right; exists tc; reflexivity. }
  assert (Hc' : forall c', In c' comps -> startswith c' "msvc" = true ->
                  c' <> "msvc15" /\ c' <> "msvc16") by (intros c' H1 H2; apply Hc; [right; exact H1|exact H2]).
  destruct (startswith c "msvc") eqn:Hm.
  - destruct (Hc c (or_introl eq_refl) Hm) as [N15 N16].
    apply String.eqb_neq in N15, N16. rewrite N15, N16. left; reflexivity.
  - destruct (startswith c "icc"); apply IH; exact Hc'.
Qed.

(** ** X7: an unknown compiler (outside gcc, clang and icc; on Windows, no
    msvc15 or msvc16 component) makes the build raise before any command
    runs, with one of the build's own exceptions *)
Theorem build_with_unknown_compiler (w : world) (OS : os_kind) (cfg : config)
    (build_dir ispc_executable tbb_root : string) (s : state) :
  (if os_eqb OS Windows
   then forall c, In c (py_split "-" (cfg_compiler cfg)) -> startswith c "msvc" = true ->
          c <> "msvc15" /\ c <> "msvc16"
   else ~ In (cfg_compiler cfg) ["gcc"; "clang"; "icc"]) ->
  let r := build_with w OS cfg build_dir ispc_executable tbb_root s in
  st_out (snd r) = st_out s /\ exists e, fst r = Exc e /\ build_exn e.
Proof.
  intros Hc r.
  enough (H : fails_quietly build_exn (build_with w OS cfg build_dir ispc_executable tbb_root))
    by exact (H s).
  clear r s. unfold build_with.
  apply fq_bind; [unfold isdir; out_walk|unfold isdir; ro_walk idtac|intros b].
  apply fq_bind;
    [destruct b; [apply out_rmtree|apply (pr_ret _ same_out_refl)]
    |unfold rmtree, set_fs; ro_walk ltac:(unfold build_exn; simpl; tauto)|intros _].
  apply fq_bind; [apply out_mkdir|unfold mkdir, put_entry, set_fs;
                  ro_walk ltac:(unfold build_exn; simpl; tauto)|intros _].
  apply fq_bind; [apply out_chdir|unfold chdir; ro_walk ltac:(unfold build_exn; simpl; tauto)|intros _].
  apply fq_bind_l.
  destruct OS; cbn [os_eqb] in Hc |- *.
  1: { intros s. destruct (windows_toolset_no_msvc (py_split "-" (cfg_compiler cfg)) "" s Hc)
         as [E|(tc' & E)]; unfold bind; rewrite E; cbn [fst snd].
       - split; [reflexivity|exists KeyError; split; [reflexivity|left; reflexivity]].
       - unfold raise. split; [reflexivity|exists UnboundLocalError; split; [reflexivity|]].
         right; left; reflexivity. }
  all: apply fq_bind_l; unfold cxx_of.
  all: destruct (String.eqb_spec (cfg_compiler cfg) "gcc") as [G|_];
         [exfalso; apply Hc; rewrite G; simpl; auto|].
  all: destruct (String.eqb_spec (cfg_compiler cfg) "clang") as [G|_];
         [exfalso; apply Hc; rewrite G; simpl; auto|].
  all: destruct (String.eqb_spec (cfg_compiler cfg) "icc") as [G|_];
         [exfalso; apply Hc; rewrite G; simpl; auto|].
  all: apply fq_raise; left; reflexivity.
Qed.

Lemma write_file_ok (p : string) (v : kind) (s s' : state) :
  write_file p v s = (Ok tt, s') -> lookup s' p = Some v.
Proof.
  unfold write_file, put_entry, set_fs, modify, gets, bind, raise.
  destruct (resolve (st_cwd s) p) as [key|] eqn:Hr; [|discriminate].
  destruct (isdir_k (fs_find (st_fs s) (dirname key))); [|discriminate].
  destruct (fs_find (st_fs s) key) as [[]|] eqn:Hf; try discriminate.
  all: intros H; inversion H; subst; unfold lookup; cbn [st_cwd st_fs]; rewrite Hr.
  all: rewrite fs_find_set, String.eqb_refl.
  all: destruct (String.eqb_spec key "/") as [Hk|_]; [subst key; rewrite fs_find_root in Hf; discriminate|reflexivity].
Qed.

Lemma same_key_eq (a b : option string) : same_key a b = true -> a = b.
Proof.
  destruct a as [x|], b as [y|]; simpl; try discriminate.
  intros H. apply String.eqb_eq in H. subst y. reflexivity.
Qed.

Lemma out_of {A} (m : M A) (s s' : state) (r : res A) :
  preserves same_out m -> m s = (r, s') -> st_out s' = st_out s.
Proof. intros Hm E. specialize (Hm s). rewrite E in Hm. exact Hm. Qed.

Lemma write_file_frame (p : string) (v : kind) (s s' : state) :
  write_file p v s = (Ok tt, s') ->
  st_cwd s' = st_cwd s /\ st_out s' = st_out s /\
  (exists key, resolve (st_cwd s) p = Some key) /\
  forall q, resolve (st_cwd s) q <> resolve (st_cwd s) p -> lookup s' q = lookup s q.
Proof.
  unfold write_file, put_entry, set_fs, modify, gets, bind, raise.
  destruct (resolve (st_cwd s) p) as [key|] eqn:Hr; [|discriminate].
  destruct (isdir_k (fs_find (st_fs s) (dirname key))); [|discriminate].
  intros H.
  assert (E : s' = mkState (fs_set (st_fs s) key v) (st_cwd s) (st_out s)).
  { destruct (fs_find (st_fs s) key) as [[]|]; try discriminate; inversion H; reflexivity. }
  subst s'. cbn [st_cwd st_out st_fs]. split; [reflexivity|]. split; [reflexivity|].
  split; [exists key; reflexivity|].
  intros q Hq. unfold lookup. cbn [st_cwd st_fs].
  destruct (resolve (st_cwd s) q) as [k|]; [|reflexivity].
  rewrite fs_find_set. destruct (String.eqb_spec k "/") as [Hk|_].
  - subst k. rewrite fs_find_root. reflexivity.
  - destruct (String.eqb_spec key k) as [Hk|_]; [congruence|reflexivity].
Qed.

Lemma str_length_app (a b : string) : String.length (a ++ b) = String.length a + String.length b.
Proof. induction a as [|c a IH]; simpl; congruence. Qed.

Lemma substring_app_prefix (p q : string) : substring 0 (String.length p) (p ++ q) = p.
Proof. induction p as [|c p IH]; simpl; [destruct q; reflexivity|]. rewrite IH. reflexivity. Qed.

Lemma string_of_list_ascii_app (a b : list ascii) :
  string_of_list_ascii (a ++ b) = (string_of_list_ascii a ++ string_of_list_ascii b)%string.
Proof. induction a as [|c a IH]; simpl; congruence. Qed.

Lemma prefix_l_app (p l : list ascii) : prefix_l p l = true -> exists r, l = (p ++ r)%list.
Proof.
  revert l; induction p as [|c p IH]; intros l H; [exists l; reflexivity|].
  destruct l as [|d l]; [discriminate|]. simpl in H. apply andb_true_iff in H as [Hc H].
  apply Ascii.eqb_eq in Hc. subst d. destruct (IH l H) as [r ->]. exists r. reflexivity.
Qed.

Lemma endswith_app (s suf : string) : endswith s suf = true -> exists p, s = (p ++ suf)%string.
Proof.
  unfold endswith. intros H. apply prefix_l_app in H as [r Hr].
  exists (string_of_list_ascii (rev r)).
  assert (E : list_ascii_of_string s = (rev r ++ list_ascii_of_string suf)%list).
  { rewrite <- (rev_involutive (list_ascii_of_string s)), Hr, rev_app_distr, rev_involutive.
    reflexivity. }
  rewrite <- (string_of_list_ascii_of_string s), E, string_of_list_ascii_app,
    string_of_list_ascii_of_string. reflexivity.
Qed.

Lemma endswith_zip_base (f : string) :
  endswith f ".zip" = true -> (substring 0 (String.length f - 4) f ++ ".zip")%string = f.
Proof.
  intros H. apply endswith_app in H as [p ->].
  rewrite str_length_app. simpl String.length.
  replace (String.length p + 4 - 4) with (String.length p) by lia.
  rewrite substring_app_prefix. reflexivity.
Qed.

Lemma create_tar_ok (filename input_dir : string) (s s' : state) :
  endswith filename ".tar.gz" = true ->
  create_package filename input_dir s = (Ok tt, s') ->
  lookup s' filename = Some (KReg written_archive)
  /\ (same_key (resolve (st_cwd s) input_dir) (resolve (st_cwd s) filename) = false ->
      lookup s input_dir <> None
      /\ st_out s' = (st_out s ++ [Creating filename;
                                   TarGzAdd filename input_dir (basename input_dir)])%list)
  /\ (same_key (resolve (st_cwd s) input_dir) (resolve (st_cwd s) filename) = true ->
      st_out s' = (st_out s ++ [Creating filename])%list).
Proof.
  intros Ht H. unfold create_package in H.
  apply bind_ok in H as (u1 & s1 & E1 & H). unfold emit, modify in E1.
  inversion E1; subst s1; clear E1. rewrite Ht in H.
  apply bind_ok in H as (u2 & s2 & E2 & H). destruct u2.
  destruct (write_file_frame _ _ _ _ E2) as (C2 & O2 & [key Hkey] & L2).
  cbn [st_cwd st_out] in C2, O2, Hkey, L2.
  apply bind_ok in H as (cwd & s3 & E3 & H). unfold gets in E3.
  inversion E3; subst cwd s3; clear E3.
  apply bind_ok in H as (u4 & s4 & E4 & H). destruct u4.
  split; [exact (write_file_ok _ _ _ _ H)|].
  pose proof (out_of _ _ _ _ (out_write_file filename (KReg written_archive)) H) as O5.
  rewrite C2 in E4.
  destruct (same_key (resolve (st_cwd s) input_dir) (resolve (st_cwd s) filename)) eqn:Hk.
  - unfold ret in E4. inversion E4; subst s4. split; [discriminate|]. intros _.
    rewrite O5, O2. reflexivity.
  - split; [|discriminate]. intros _.
    apply bind_ok in E4 as (k & s5 & E5 & E4). unfold gets in E5.
    inversion E5; subst k s5; clear E5.
    destruct (lookup s2 input_dir) as [k|] eqn:Hl; [|unfold raise in E4; discriminate].
    unfold emit, modify in E4. inversion E4; subst s4. cbn [st_out] in O5.
    split.
    + assert (Hne : resolve (st_cwd s) input_dir <> resolve (st_cwd s) filename).
      { intros Heq. rewrite Heq, Hkey in Hk. simpl in Hk. rewrite String.eqb_refl in Hk.
        discriminate. }
      pose proof (L2 input_dir Hne) as L. rewrite Hl in L. unfold lookup in L |- *.
      cbn [st_cwd st_fs] in L. rewrite <- L. discriminate.
    + rewrite O5, O2, <- app_assoc. reflexivity.
Qed.

Lemma create_zip_ok (filename input_dir : string) (s s' : state) :
  endswith filename ".tar.gz" = false -> endswith filename ".zip" = true ->
  create_package filename input_dir s = (Ok tt, s') ->
  lookup s' filename = Some (KReg written_archive)
  /\ isdir_k (lookup s (dirname input_dir)) = true
  /\ st_out s' = (st_out s ++ [Creating filename;
                               MakeArchive (substring 0 (String.length filename - 4) filename)
                                 "zip" (dirname input_dir) (basename input_dir)])%list.
Proof.
  intros Ht Hz H. unfold create_package in H.
  apply bind_ok in H as (u1 & s1 & E1 & H). unfold emit, modify in E1.
  inversion E1; subst s1; clear E1. rewrite Ht, Hz in H.
  apply bind_ok in H as (k & s2 & E2 & H). unfold gets in E2.
  inversion E2; subst k s2; clear E2.
  apply bind_ok in H as (u3 & s3 & E3 & H).
  destruct (isdir_k (lookup _ (dirname input_dir))) eqn:Hd;
    [|destruct (exists_k _); unfold raise in E3; discriminate].
  unfold ret in E3. inversion E3; subst s3; clear E3.
  apply bind_ok in H as (b & s4 & E4 & H). unfold path_exists, gets in E4.
  inversion E4; subst b s4; clear E4.
  apply bind_ok in H as (u5 & s5 & E5 & H).
  assert (O5 : st_out s5 = (st_out s ++ [Creating filename])%list).
  { destruct (_ && _).
    - unfold makedirs in E5. exact (out_of _ _ _ _ (out_makedirs_f _ _) E5).
    - unfold ret in E5. inversion E5. reflexivity. }
  apply bind_ok in H as (u6 & s6 & E6 & H).
  pose proof (out_of _ _ _ _ (out_write_file _ _) E6) as O6.
  apply bind_ok in H as (k & s7 & E7 & H). unfold gets in E7.
  inversion E7; subst k s7; clear E7.
  apply bind_ok in H as (u8 & s8 & E8 & H).
  destruct (_ || _ || _); [|unfold raise in E8; discriminate].
  unfold emit, modify in E8. inversion E8; subst s8; clear E8.
  pose proof (out_of _ _ _ _ (out_write_file _ _) H) as O9. cbn [st_out] in O9.
  pose proof (write_file_ok _ _ _ _ H) as L. rewrite (endswith_zip_base filename Hz) in L.
  split; [exact L|]. split; [reflexivity|].
  rewrite O9, O6, O5, <- app_assoc. reflexivity.
Qed.

(** ** C7
    [create_package] raises the unsupported-format error exactly for the
    names ending neither in [.tar.gz] nor in [.zip] (so [.tgz] is refused).
    When it returns for a [.tar.gz] name, [filename] holds the written
    archive and, unless [input_dir] is the archive itself, [input_dir]
    existed and was added to the gzip tar archive under its basename.  When
    it returns for a [.zip] name, [filename] holds the written archive, made
    by [shutil.make_archive] with the parent of [input_dir] (a directory) as
    the root directory and the basename of [input_dir] as the base
    directory. *)
Theorem create_package_formats (filename input_dir : string) :
  (forall s, fst (create_package filename input_dir s) = Exc UnsupportedFormat <->
             endswith filename ".tar.gz" = false /\ endswith filename ".zip" = false)
  /\ (endswith filename ".tar.gz" = true -> forall s s',
        create_package filename input_dir s = (Ok tt, s') ->
        lookup s' filename = Some (KReg written_archive)
        /\ (resolve (st_cwd s) input_dir <> resolve (st_cwd s) filename ->
            lookup s input_dir <> None
            /\ st_out s' = (st_out s ++ [Creating filename;
                                         TarGzAdd filename input_dir (basename input_dir)])%list))
  /\ (endswith filename ".zip" = true -> endswith filename ".tar.gz" = false -> forall s s',
        create_package filename input_dir s = (Ok tt, s') ->
        lookup s' filename = Some (KReg written_archive)
        /\ isdir_k (lookup s (dirname input_dir)) = true
        /\ st_out s' = (st_out s ++ [Creating filename;
                        MakeArchive (substring 0 (String.length filename - 4) filename) "zip"
                          (dirname input_dir) (basename input_dir)])%list)
  /\ endswith "oidn.tgz" ".tar.gz" = false /\ endswith "oidn.tgz" ".zip" = false.
Proof.
  split; [|split; [|split]]; [| | |split; reflexivity].
  - intros s.
    assert (Hro : forall m : M unit, raises_only not_unsupported m ->
              fst ((emit (Creating filename) ;;; m) s) <> Exc UnsupportedFormat).
    { intros m Hm E.
      specialize (Hm (mkState (st_fs s) (st_cwd s) (st_out s ++ [Creating filename])%list)).
      unfold bind, emit, modify in E. simpl in E. rewrite E in Hm. exact (Hm eq_refl). }
    unfold create_package.
    destruct (endswith filename ".tar.gz") eqn:Ht; [|destruct (endswith filename ".zip") eqn:Hz].
    + split; [|intros [E _]; discriminate]. intros E; exfalso; revert E; apply Hro.
      unfold emit. ro_walk nu.
    + split; [|intros [_ E]; discriminate]. intros E; exfalso; revert E; apply Hro.
      unfold emit, path_exists, makedirs. ro_walk nu.
    + simpl. split; [intros _; split; reflexivity|reflexivity].
  - intros Ht s s' H. destruct (create_tar_ok _ _ _ _ Ht H) as (L & Hd & _).
    split; [exact L|]. intros Hne. apply Hd.
    destruct (same_key _ _) eqn:Hk; [|reflexivity].
    exfalso. exact (Hne (same_key_eq _ _ Hk)).
  - intros Hz Ht s s' H. exact (create_zip_ok _ _ _ _ Ht Hz H).
Qed.


Lemma commonpath_mixed (paths : list string) (a b : string) :
  In a paths -> In b paths -> startswith a "/" = true -> startswith b "/" = false ->
  commonpath paths = None.
Proof.
  destruct paths as [|p0 ps]; [intros []|].
  intros Ha Hb Sa Sb. unfold commonpath.
  destruct (forallb (fun p => Bool.eqb (startswith p "/") (startswith p0 "/")) ps) eqn:F;
    [|reflexivity].
  exfalso. rewrite forallb_forall in F.
  assert (G : forall x, In x (p0 :: ps) -> startswith x "/" = startswith p0 "/").
  { intros x [<-|Hx]; [reflexivity|]. apply Bool.eqb_prop, F, Hx. }
  rewrite (G a Ha) in Sa. rewrite (G b Hb) in Sb. congruence.
Qed.

(** ** X9: an empty archive, or one that mixes absolute and relative member
    names, makes the extraction raise [ValueError] before anything is written *)
Theorem extract_with_no_common_path (w : world) (fmt : archive_format)
    (filename output_dir : string) (s : state) (c : nat) (ms : list (string * kind)) :
  content_k (lookup s filename) = Some c -> archive_of w fmt c = Some ms ->
  (ms = [] \/ exists a b, In a ms /\ In b ms /\
                          startswith (fst a) "/" = true /\ startswith (fst b) "/" = false) ->
  extract_with w fmt filename output_dir s = (Exc ValueError, s).
Proof.
  intros Hc Ha Hm. unfold extract_with, open_archive, bind, gets, ret.
  destruct (lookup s filename) as [[]|]; try discriminate; cbn [content_k option_map] in Hc |- *;
    inversion Hc; subst; rewrite Ha.
  all: replace (commonpath (map fst ms)) with (@None string); [reflexivity|].
  all: destruct Hm as [->|(a & b & Ha' & Hb' & Sa & Sb)]; [reflexivity|].
  all: symmetry; apply (commonpath_mixed _ (fst a) (fst b)); auto using in_map.
Qed.

(** ** X10: [check_symbols] raises [ValueError] at the first line whose
    version does not parse, when the lines before it pass *)
Theorem check_symbols_unparsable (w : world) (filename label : string) (max_version : list Z)
    (s : state) (pre : list string) (l : string) (post : list string) :
  let lines := match content_k (lookup s filename) with Some c => nm_out w c | None => [] end in
  symbol_lines lines label = (pre ++ l :: post)%list ->
  (forall l', In l' pre -> exists v, symbol_version (strip l') = Some v
                                     /\ py_list_gt v max_version = false) ->
  symbol_version (strip l) = None ->
  check_symbols w filename label max_version s = (Exc ValueError, s).
Proof.
  intros lines Hl Hpre Hv. rewrite check_symbols_eq. fold lines. rewrite Hl. f_equal.
  clear Hl. induction pre as [|x pre IH]; simpl.
  - rewrite Hv. reflexivity.
  - destruct (Hpre x (or_introl eq_refl)) as (v & Hx & Hg). rewrite Hx, Hg.
    apply IH. intros l' Hl'. apply Hpre. right; exact Hl'.
Qed.


Lemma iter_run_ok (w : world) (g : string -> string) (l : list string) (s s' : state) :
  iter (fun f => run w (g f)) l s = (Ok tt, s') ->
  st_out s' = (st_out s ++ map (fun f => System (g f)) l)%list.
Proof.
  revert s; induction l as [|f l IH]; intros s H; simpl in H.
  - unfold ret in H. inversion H; subst. rewrite app_nil_r. reflexivity.
  - apply bind_ok in H as (u & s1 & E1 & H).
    pose proof (run_eq w (g f) s) as [R _]. rewrite E1 in R. cbn [snd] in R.
    rewrite (IH s1 H), R, <- app_assoc. reflexivity.
Qed.

(** ** X12: without a signing tool nothing happens; with one, a successful
    signing signs every binary in order, then creates the package again *)
Theorem sign_and_repack_effects (w : world) (OS : os_kind) (binaries : list string)
    (package_filename package_dir : string) (s : state) :
  (truthy (getenv w ("OIDN_SIGN_FILE_" ++ os_upper OS)) = None ->
   sign_and_repack w OS binaries package_filename package_dir s = (Ok tt, s))
  /\ (forall sign_file s',
       truthy (getenv w ("OIDN_SIGN_FILE_" ++ os_upper OS)) = Some sign_file ->
       sign_and_repack w OS binaries package_filename package_dir s = (Ok tt, s') ->
       (exists l, st_out s' = (st_out s ++
                   map (fun f => System (sign_file ++ " -q -vv " ++ f)) binaries ++
                   Creating package_filename :: l)%list)
       /\ (endswith package_filename ".tar.gz" = true ->
           lookup s' package_filename = Some (KReg written_archive))).
Proof.
  unfold sign_and_repack. split.
  - intros H. rewrite H. reflexivity.
  - intros sign_file s' Hs H. rewrite Hs in H.
    apply bind_ok in H as (u1 & s1 & E1 & H). destruct u1.
    apply iter_run_ok in E1.
    apply bind_ok in H as (u2 & s2 & E2 & H).
    pose proof (out_remove package_filename s1) as O2. rewrite E2 in O2.
    unfold same_out in O2; cbn [snd] in O2.
    destruct (endswith package_filename ".tar.gz") eqn:Ht.
    + destruct (create_tar_ok _ _ _ _ Ht H) as (L & Hd & Hs').
      split; [|intros _; exact L].
      destruct (same_key _ _) eqn:Hk.
      * exists []. rewrite (Hs' eq_refl), O2, E1. repeat rewrite <- app_assoc. reflexivity.
      * exists [TarGzAdd package_filename package_dir (basename package_dir)].
        rewrite (proj2 (Hd eq_refl)), O2, E1. repeat rewrite <- app_assoc. reflexivity.
    + split; [|discriminate].
      destruct (endswith package_filename ".zip") eqn:Hz.
      * destruct (create_zip_ok _ _ _ _ Ht Hz H) as (_ & _ & O).
        eexists. rewrite O, O2, E1. repeat rewrite <- app_assoc. reflexivity.
      * unfold create_package in H. apply bind_ok in H as (u3 & s3 & E3 & H).
        rewrite Ht, Hz in H. discriminate.
Qed.

Lemma str_app_empty_r (a : string) : (a ++ "")%string = a.
Proof. induction a as [|c a IH]; simpl; congruence. Qed.

Lemma substring_at_end (s : string) (m : nat) : substring (String.length s) m s = "".
Proof. induction s as [|c s IH]; simpl; [destruct m; reflexivity|exact IH]. Qed.

Lemma prefix_tar_dot (p q' : string) :
  p <> "" -> String.prefix ".tar." (p ++ String "." q') = true -> String.prefix ".tar" p = true.
Proof.
  intros Hp. destruct p as [|a1 [|a2 [|a3 [|a4 r]]]]; [congruence| | | |]; clear Hp; cbn -[ascii_dec].
  all: repeat match goal with |- context [ascii_dec ?x ?y] => destruct (ascii_dec x y) end.
  all: try discriminate; auto.
  all: intros _; destruct r; reflexivity.
Qed.

Lemma contains_tar_head (p : string) :
  String.prefix ".tar" p = true -> contains ".tar" p = true.
Proof. intros H. destruct p; cbn [contains]; rewrite H; reflexivity. Qed.

Lemma pkg_alt_inside (p q' : string) :
  p <> "" -> contains ".tar" p = false -> 3 <= String.length q' ->
  pkg_alt (p ++ String "." q') = false.
Proof.
  intros Hp Hc Hq. unfold pkg_alt.
  assert (L : 5 <= String.length (p ++ String "." q')).
  { rewrite str_length_app. destruct p; [congruence|]. simpl. lia. }
  destruct (String.eqb_spec (p ++ String "." q') ".tar") as [E|_];
    [rewrite E in L; simpl in L; lia|].
  destruct (String.eqb_spec (p ++ String "." q') ".zip") as [E|_];
    [rewrite E in L; simpl in L; lia|].
  destruct (String.prefix ".tar." (p ++ String "." q')) eqn:P; [|reflexivity].
  apply prefix_tar_dot in P; [|exact Hp]. apply contains_tar_head in P. congruence.
Qed.

Lemma first_suffix_pkg (p q' : string) :
  contains ".tar" p = false -> 3 <= String.length q' ->
  first_suffix pkg_alt (p ++ String "." q')
  = option_map (Nat.add (String.length p)) (first_suffix pkg_alt (String "." q')).
Proof.
  intros Hc Hq. remember (first_suffix pkg_alt (String "." q')) as F eqn:EF.
  induction p as [|c p IH].
  - change ("" ++ String "." q')%string with (String "." q').
    rewrite <- EF. destruct F; reflexivity.
  - cbn [contains] in Hc. pose proof Hc as Hc1. apply orb_false_iff in Hc as [_ Hc].
    change (String c p ++ String "." q') with (String c (p ++ String "." q')).
    cbn [first_suffix].
    pose proof (pkg_alt_inside (String c p) q' ltac:(discriminate) Hc1 Hq) as K.
    change (String c p ++ String "." q')%string with (String c (p ++ String "." q')) in K.
    rewrite K.
    rewrite (IH Hc). destruct F; reflexivity.
Qed.

Lemma re_subject_app (p q : string) :
  q <> "" -> endswith q (sing newline) = false -> re_subject (p ++ q) = (p ++ q)%string.
Proof.
  intros Hq Hn. unfold re_subject. replace (endswith (p ++ q) (sing newline)) with false;
    [reflexivity|symmetry].
  unfold endswith in *. rewrite list_ascii_of_string_app, rev_app_distr.
  destruct (rev (list_ascii_of_string q)) as [|c l] eqn:E.
  - exfalso. apply Hq. destruct q; [reflexivity|].
    simpl in E. destruct (rev (list_ascii_of_string q)); discriminate.
  - exact Hn.
Qed.

(** ** X13: the package directory is the package name without its extension
    ([.tar.gz], [.zip] or [.tar]) when the name has no other [.tar] in it; a
    [.tgz] name is kept whole *)
Theorem strip_pkg_suffix_ext (p : string) :
  contains ".tar" p = false ->
  strip_pkg_suffix (p ++ ".tar.gz") = p /\ strip_pkg_suffix (p ++ ".zip") = p
  /\ strip_pkg_suffix (p ++ ".tar") = p /\ strip_pkg_suffix (p ++ ".tgz") = (p ++ ".tgz")%string.
Proof.
  intros Hc. unfold strip_pkg_suffix.
  assert (R : forall q', re_subject (p ++ String "." q') = (p ++ String "." q')%string ->
            3 <= String.length q' ->
            first_suffix pkg_alt (String "." q') = Some 0 ->
            (let subj := re_subject (p ++ String "." q') in
             match first_suffix pkg_alt subj with
             | Some i => substring 0 i subj ++
                         substring (String.length subj) (String.length (p ++ String "." q'))
                           (p ++ String "." q')
             | None => p ++ String "." q'
             end) = p).
  { intros q' Hr Hq Hf. cbv zeta. rewrite Hr, (first_suffix_pkg p q' Hc Hq), Hf.
    cbn [option_map]. rewrite Nat.add_0_r, substring_app_prefix, substring_at_end.
    apply str_app_empty_r. }
  pose (N := fun q' => re_subject_app p (String "." q') ltac:(discriminate)).
  split; [|split; [|split]].
  - apply R; [apply N; reflexivity|simpl; lia|reflexivity].
  - apply R; [apply N; reflexivity|simpl; lia|reflexivity].
  - apply R; [apply N; reflexivity|simpl; lia|reflexivity].
  - cbv zeta. rewrite (N "tgz" eq_refl), (first_suffix_pkg p "tgz" Hc ltac:(simpl; lia)).
    reflexivity.
Qed.

Lemma keeps_lookup (s s' : state) (p : string) :
  keeps_entries s s' -> lookup s p <> None -> lookup s' p <> None.
Proof.
  intros [C H]. unfold lookup. rewrite C.
  destruct (resolve (st_cwd s) p); [apply H|auto].
Qed.

Lemma keeps_extract_member (output_dir : string) (m : string * kind) :
  preserves keeps_entries (extract_member output_dir m).
Proof.
  unfold extract_member, path_exists, makedirs.
  keeps_walk; try apply keeps_makedirs_f; apply keeps_put_entry.
Qed.

Lemma extract_member_ok (output_dir : string) (m : string * kind) (s s' : state) :
  extract_member output_dir m s = (Ok tt, s') -> lookup s' (join output_dir (fst m)) <> None.
Proof.
  unfold extract_member. intros H.
  apply bind_ok in H as (b & s1 & E1 & H). unfold path_exists, gets in E1. inversion E1; subst s1.
  apply bind_ok in H as (u & s2 & E2 & H).
  apply bind_ok in H as (cwd & s3 & E3 & H). unfold gets in E3. inversion E3; subst s3 cwd.
  destruct (resolve (st_cwd s2) (join output_dir (fst m))) as [key|] eqn:Hr; [|discriminate].
  apply bind_ok in H as (t & s4 & E4 & H). unfold gets in E4. inversion E4; subst s4 t.
  assert (Hput : forall v, put_entry key v s2 = (Ok tt, s') -> lookup s' (join output_dir (fst m)) <> None).
  { unfold put_entry, gets, bind, set_fs, modify. intros v E; inversion E; subst.
    unfold lookup; cbn [st_cwd st_fs]. rewrite Hr, fs_find_set, String.eqb_refl.
    destruct (String.eqb key "/"); discriminate. }
  destruct (snd m); try exact (Hput _ H).
  destruct (isdir_k (fs_find (st_fs s2) key)) eqn:Hd; [|exact (Hput _ H)].
  unfold ret in H. inversion H; subst s'. unfold lookup. rewrite Hr.
  destruct (fs_find (st_fs s2) key); discriminate.
Qed.

Lemma extractall_ok (output_dir : string) (ms : list (string * kind)) (s s' : state) :
  extractall output_dir ms s = (Ok tt, s') ->
  forall m, In m ms -> lookup s' (join output_dir (fst m)) <> None.
Proof.
  unfold extractall. revert s; induction ms as [|m0 ms IH]; intros s H m Hm; [destruct Hm|].
  simpl in H. apply bind_ok in H as (u & s1 & E1 & H). destruct u.
  destruct Hm as [<-|Hm]; [|exact (IH s1 H m Hm)].
  assert (K : keeps_entries s1 s').
  { pose proof (pr_iter _ keeps_refl keeps_trans _ ms (keeps_extract_member output_dir) s1) as K.
    rewrite H in K. exact K. }
  exact (keeps_lookup _ _ _ K (extract_member_ok _ _ _ _ E1)).
Qed.

(** ** X14: after a successful tar extraction every member of the archive is
    present below the chosen output directory *)
Theorem extract_tar_members_exist (w : world) (filename output_dir : string) (s s' : state)
    (c : nat) (ms : list (string * kind)) :
  content_k (lookup s filename) = Some c -> archive_of w TarFormat c = Some ms ->
  extract_with w TarFormat filename output_dir s = (Ok tt, s') ->
  exists common, commonpath (map fst ms) = Some common /\
    forall m, In m ms ->
      lookup s' (join (if String.eqb common (basename output_dir) then dirname output_dir
                       else output_dir) (fst m)) <> None.
Proof.
  intros Hc Ha H. unfold extract_with in H.
  apply bind_ok in H as (ms' & s1 & E1 & H).
  assert (ms' = ms /\ s1 = s) as [-> ->].
  { unfold open_archive, bind, gets, ret, raise in E1.
    destruct (lookup s filename) as [[]|]; try discriminate; cbn [content_k option_map] in *;
      inversion Hc; subst; rewrite Ha in E1; inversion E1; auto. }
  destruct (commonpath (map fst ms)) as [common|]; [|discriminate].
  exists common. split; [reflexivity|].
  apply bind_ok in H as (b & s2 & E2 & H). unfold isdir, gets in E2. inversion E2; subst s2.
  apply bind_ok in H as (u & s3 & E3 & H).
  exact (extractall_ok _ _ _ _ H).
Qed.

Lemma main_unsupported_platform_witness :
  main world_bsd cfg_package state_empty = (Exc KeyError, state_empty).
Proof. apply main_unsupported_platform; discriminate. Defined.

Lemma main_stage_membership_witness :
  main world_root_r (mkConfig ["package"; "build"; "build"] "gcc" "Release" None None) state_r
  = main world_root_r (mkConfig ["build"; "package"] "gcc" "Release" None None) state_r.
Proof.
  apply main_stage_membership; cbn [cfg_stage cfg_compiler cfg_config cfg_wrapper cfg_cmake_vars];
    try reflexivity; simpl; tauto.
Defined.

Lemma setup_download_removes_archive_witness :
  isdir_k (lookup state_r "/r/deps/ispc-v1.13.0-linux") = false
  /\ fst (setup_ispc world_dl Linux "/r/deps" state_r) = Ok "/r/deps/ispc-v1.13.0-linux/bin/ispc"
  /\ lookup (snd (setup_ispc world_dl Linux "/r/deps" state_r))
       "/r/deps/ispc-v1.13.0-linux.tar.gz" = None
  /\ isdir_k (lookup state_r "/r/deps/tbb-2020.2-lin") = false
  /\ fst (setup_tbb world_dl Linux "/r/deps" state_r) = Ok "/r/deps/tbb-2020.2-lin/tbb"
  /\ lookup (snd (setup_tbb world_dl Linux "/r/deps" state_r))
       "/r/deps/tbb-2020.2-lin.tgz" = None.
Proof.
  destruct (setup_download_removes_archive world_dl Linux "/r/deps" state_r
              (snd (setup_ispc world_dl Linux "/r/deps" state_r))
              "/r/deps/ispc-v1.13.0-linux/bin/ispc") as [Hi _].
  destruct (setup_download_removes_archive world_dl Linux "/r/deps" state_r
              (snd (setup_tbb world_dl Linux "/r/deps" state_r))
              "/r/deps/tbb-2020.2-lin/tbb") as [_ Ht].
  destruct (Hi (eq_refl) ltac:(vm_compute; reflexivity)) as [_ Li].
  destruct (Ht (eq_refl) ltac:(vm_compute; reflexivity)) as [_ Lt].
  split; [reflexivity|]. split; [vm_compute; reflexivity|]. split; [exact Li|].
  split; [reflexivity|]. split; [vm_compute; reflexivity|]. exact Lt.
Defined.

Lemma build_with_commands_witness :
  fst (build_with world_root_r Linux cfg_build_ccache "build_release"
         "/r/deps/ispc" "/r/deps/tbb" state_r) = Ok tt
  /\ resolve (st_cwd state_r) "build_release"
     = Some (st_cwd (snd (build_with world_root_r Linux cfg_build_ccache "build_release"
                            "/r/deps/ispc" "/r/deps/tbb" state_r))).
Proof.
  assert (Hok : build_with world_root_r Linux cfg_build_ccache "build_release"
                  "/r/deps/ispc" "/r/deps/tbb" state_r
                = (Ok tt, snd (build_with world_root_r Linux cfg_build_ccache "build_release"
                                 "/r/deps/ispc" "/r/deps/tbb" state_r)))
    by (vm_compute; reflexivity).
  split; [rewrite Hok; reflexivity|].
  exact (proj1 (build_with_commands world_root_r Linux cfg_build_ccache "build_release"
                  "/r/deps/ispc" "/r/deps/tbb" state_r _ Hok)).
Defined.

Lemma package_stage_missing_build_dir_witness :
  isdir_k (lookup state_r "/r/build_release") = false
  /\ exists e, package_stage world_root_r Linux cfg_package "/r/build_release" state_r
               = (Exc e, state_r) /\ (e = FileNotFoundError \/ e = NotADirectoryError).
Proof.
  split; [vm_compute; reflexivity|].
  exact (package_stage_missing_build_dir world_root_r Linux cfg_package "/r/build_release"
           state_r ltac:(vm_compute; reflexivity)).
Defined.

Lemma build_with_unknown_compiler_witness :
  st_out (snd (build_with world_root_r Linux (mkConfig ["build"] "cl" "Release" None None)
                 "build_release" "/r/deps/ispc" "/r/deps/tbb" state_r)) = []
  /\ fst (build_with world_root_r Linux (mkConfig ["build"] "cl" "Release" None None)
            "build_release" "/r/deps/ispc" "/r/deps/tbb" state_r) = Exc KeyError.
Proof.
  destruct (build_with_unknown_compiler world_root_r Linux
              (mkConfig ["build"] "cl" "Release" None None)
              "build_release" "/r/deps/ispc" "/r/deps/tbb" state_r
              ltac:(simpl; intuition discriminate)) as [O _].
  split; [exact O|vm_compute; reflexivity].
Defined.

(** C7 at [/b/oidn.tar.gz] and at [/b/oidn.zip], packing the directory
    [/b/oidn]. *)
Lemma create_package_formats_witness :
  create_package "/b/oidn.tar.gz" "/b/oidn" (mkState [("/b", KDir); ("/b/oidn", KDir)] "/" [])
  = (Ok tt, snd (create_package "/b/oidn.tar.gz" "/b/oidn"
                   (mkState [("/b", KDir); ("/b/oidn", KDir)] "/" [])))
  /\ st_out (snd (create_package "/b/oidn.tar.gz" "/b/oidn"
                   (mkState [("/b", KDir); ("/b/oidn", KDir)] "/" [])))
     = [Creating "/b/oidn.tar.gz"; TarGzAdd "/b/oidn.tar.gz" "/b/oidn" "oidn"]
  /\ lookup (snd (create_package "/b/oidn.zip" "/b/oidn"
                   (mkState [("/b", KDir); ("/b/oidn", KDir)] "/" []))) "/b/oidn.zip"
     = Some (KReg written_archive).
Proof.
  set (s0 := mkState [("/b", KDir); ("/b/oidn", KDir)] "/" []).
  assert (Hok : create_package "/b/oidn.tar.gz" "/b/oidn" s0
                = (Ok tt, snd (create_package "/b/oidn.tar.gz" "/b/oidn" s0)))
    by (vm_compute; reflexivity).
  assert (Hzip : create_package "/b/oidn.zip" "/b/oidn" s0
                 = (Ok tt, snd (create_package "/b/oidn.zip" "/b/oidn" s0)))
    by (vm_compute; reflexivity).
  destruct (create_package_formats "/b/oidn.tar.gz" "/b/oidn") as (_ & Htar & _).
  destruct (create_package_formats "/b/oidn.zip" "/b/oidn") as (_ & _ & Hz & _).
  destruct (Htar eq_refl s0 _ Hok) as [_ Hd].
  split; [exact Hok|]. split.
  - exact (proj2 (Hd ltac:(intros E; vm_compute in E; discriminate E))).
  - exact (proj1 (Hz eq_refl eq_refl s0 _ Hzip)).
Defined.



Lemma extract_with_no_common_path_witness :
  extract_with world_dl TarFormat "/r/m.tar" "/r/out" state_mixed = (Exc ValueError, state_mixed).
Proof.
  apply (extract_with_no_common_path world_dl TarFormat "/r/m.tar" "/r/out" state_mixed 9
           [("/etc/x", KReg 1); ("y", KReg 2)]); [reflexivity|reflexivity|].
  right. exists ("/etc/x", KReg 1), ("y", KReg 2). simpl; auto.
Defined.

Lemma check_symbols_unparsable_witness :
  check_symbols world_dl "/lib.so" "GLIBC" glibc_max state_lib = (Exc ValueError, state_lib).
Proof.
  apply (check_symbols_unparsable world_dl "/lib.so" "GLIBC" glibc_max state_lib
           ["f@@GLIBC_2.14"] "g@@GLIBC_PRIVATE" []).
  - vm_compute. reflexivity.
  - intros l' [<-|[]]. exists [2; 14]%Z. split; vm_compute; reflexivity.
  - vm_compute. reflexivity.
Defined.

Lemma sign_and_repack_effects_witness :
  st_out (snd (sign_and_repack world_dl Linux ["/p/a"; "/p/b"] "/p.tar.gz" "/p" state_pkg))
  = [System "signtool -q -vv /p/a"; System "signtool -q -vv /p/b"; Creating "/p.tar.gz";
     TarGzAdd "/p.tar.gz" "/p" "p"]
  /\ lookup (snd (sign_and_repack world_dl Linux ["/p/a"; "/p/b"] "/p.tar.gz" "/p" state_pkg))
       "/p.tar.gz" = Some (KReg written_archive).
Proof.
  destruct (sign_and_repack_effects world_dl Linux ["/p/a"; "/p/b"] "/p.tar.gz" "/p" state_pkg)
    as [_ H].
  destruct (H "signtool" _ eq_refl ltac:(vm_compute; reflexivity)) as [_ L].
  split; [vm_compute; reflexivity|exact (L eq_refl)].
Defined.

Lemma strip_pkg_suffix_ext_witness :
  strip_pkg_suffix "/r/build_release/oidn-1.2.0.x86_64.linux.tar.gz"
    = "/r/build_release/oidn-1.2.0.x86_64.linux"
  /\ strip_pkg_suffix "/r/build_release/oidn-1.2.0.x86_64.linux.tgz"
    = "/r/build_release/oidn-1.2.0.x86_64.linux.tgz".
Proof.
  destruct (strip_pkg_suffix_ext "/r/build_release/oidn-1.2.0.x86_64.linux"
              ltac:(vm_compute; reflexivity)) as (A & _ & _ & D).
  split; [exact A|exact D].
Defined.

Lemma extract_tar_members_exist_witness :
  fst (extract_with world_no_sign TarFormat pkg_file "/r/build_release" state_built) = Ok tt
  /\ forall m, In m pkg_members ->
       lookup (snd (extract_with world_no_sign TarFormat pkg_file "/r/build_release" state_built))
         (join (if String.eqb "oidn-1.2.0.x86_64.linux" (basename "/r/build_release")
                then dirname "/r/build_release" else "/r/build_release") (fst m)) <> None.
Proof.
  assert (Hok : extract_with world_no_sign TarFormat pkg_file "/r/build_release" state_built
                = (Ok tt, snd (extract_with world_no_sign TarFormat pkg_file "/r/build_release"
                                 state_built))) by (vm_compute; reflexivity).
  split; [rewrite Hok; reflexivity|].
  destruct (extract_tar_members_exist world_no_sign pkg_file "/r/build_release" state_built _ 1
              pkg_members eq_refl eq_refl Hok) as (common & Hc & H).
  assert (Hc' : commonpath (map fst pkg_members) = Some "oidn-1.2.0.x86_64.linux")
    by (vm_compute; reflexivity).
  rewrite Hc' in Hc. injection Hc as <-. exact H.
Defined.
